(** * zipsearch: the index builder and the radius query

    A shallow embedding of [zipsearch/bin/build_fast_indices.py] and of the
    radius query and the distance of [zipsearch/FastSearchEngine.py].  The
    bodies of the engine's methods are not in the sources, which keep their
    signatures and docstrings; these two are modelled from the spec.

    - Python [str] values are [string]s, one character for one code point,
      [None]-able values are [option]s, SQLite REAL columns are binary64 [float]s, integer
      columns are [Z], BLOB columns are [list Byte.byte].
    - [dict]s are stdpp [gmap]s; the lists stored in them are [list]s in
      insertion order.
    - A raised exception is the [Raise] branch of [result]. *)

From Stdlib Require Import ZArith List String Ascii Bool Lia.
From Stdlib.Strings Require Import Byte.
From Stdlib Require Import PrimFloat SpecFloat FloatOps FloatAxioms.
From Stdlib Require Import Sorting.Sorted Sorting.Permutation.
From Stdlib Require Import Reals Lra.
From stdpp Require Import base option list gmap strings.

Local Open Scope string_scope.
Local Open Scope Z_scope.
Local Open Scope list_scope.

(** ** Exceptions *)

Inductive exn : Type :=
| FileNotFoundError
| OperationalError
| DatabaseError
| OverflowError
| ValueError.

Inductive result (A : Type) : Type :=
| Ok (a : A)
| Raise (e : exn).

Arguments Ok {A} a.
Arguments Raise {A} e.

Definition bind {A B : Type} (r : result A) (k : A -> result B) : result B :=
  match r with
  | Ok a => k a
  | Raise e => Raise e
  end.

Notation "'let*' x := r 'in' k" := (bind r (fun x => k))
  (at level 10, x name, r at level 100, k at level 200).

(** ** Python built-ins used by the builder *)

Module Py.

(** The value tested by [if s:] for an optional string: [None] and the empty
    string are false, every other string is true.  [truthy] returns the
    string exactly when the test passes. *)
Definition truthy (s : option string) : option string :=
  match s with
  | Some (String c rest) => Some (String c rest)
  | _ => None
  end.

Fixpoint zeros (n : nat) : string :=
  match n with
  | O => ""
  | S k => String "0" (zeros k)
  end.

Definition is_sign (c : ascii) : bool :=
  (Ascii.eqb c "+" || Ascii.eqb c "-")%bool.

(** [str.zfill(width)]: a string at least [width] long is returned unchanged;
    a shorter one is padded on the left with ['0'], after a leading sign. *)
Definition zfill (width : nat) (s : string) : string :=
  if (width <=? String.length s)%nat then s
  else
    let fill := (width - String.length s)%nat in
    match s with
    | String c rest =>
        if is_sign c then String c (zeros fill +:+ rest) else zeros fill +:+ s
    | EmptyString => zeros fill
    end.

(** [int(x)] on a float: rounds toward zero; raises on infinities and NaN. *)
Definition int_of_float (x : float) : result Z :=
  match Prim2SF x with
  | S754_zero _ => Ok 0%Z
  | S754_infinity _ => Raise OverflowError
  | S754_nan => Raise ValueError
  | S754_finite s m e =>
      let mag := (if 0 <=? e then Z.pos m * 2 ^ e else Z.pos m / 2 ^ (- e))%Z in
      Ok (if s then - mag else mag)%Z
  end.

Definition is_digit (c : ascii) : bool :=
  let n := nat_of_ascii c in ((48 <=? n) && (n <=? 57))%nat.

Fixpoint all_digits (s : string) : bool :=
  match s with
  | EmptyString => true
  | String c rest => is_digit c && all_digits rest
  end.

End Py.

(** The exact value of a float as a fraction [(n, d)] with [d > 0];
    [None] for infinities and NaN. *)
Definition float_fraction (x : float) : option (Z * Z) :=
  match Prim2SF x with
  | S754_zero _ => Some (0, 1)%Z
  | S754_finite s m e =>
      let n := if s then Z.neg m else Z.pos m in
      Some (if 0 <=? e then (n * 2 ^ e, 1) else (n, 2 ^ (- e)))%Z
  | _ => None
  end.

(** ** Source rows and records *)

(** One row of [SELECT ... FROM simple_zipcode]: 24 nullable columns. *)
Record Row : Type := mkRow {
  row_zipcode : option string;
  row_zipcode_type : option string;
  row_major_city : option string;
  row_post_office_city : option string;
  row_common_city_list_blob : option (list byte);
  row_county : option string;
  row_state : option string;
  row_lat : option float;
  row_lng : option float;
  row_timezone : option string;
  row_radius_in_miles : option float;
  row_area_code_list_blob : option (list byte);
  row_population : option Z;
  row_population_density : option float;
  row_land_area_in_sqmi : option float;
  row_water_area_in_sqmi : option float;
  row_housing_units : option Z;
  row_occupied_housing_units : option Z;
  row_median_home_value : option Z;
  row_median_household_income : option Z;
  row_bounds_west : option float;
  row_bounds_east : option float;
  row_bounds_north : option float;
  row_bounds_south : option float
}.

(** The [FastZipcode] dataclass; the indices store its [__dict__]. *)
Record FastZipcode : Type := mkFastZipcode {
  zipcode : option string;
  zipcode_type : option string;
  major_city : option string;
  post_office_city : option string;
  common_city_list : option (list string);
  county : option string;
  state : option string;
  lat : option float;
  lng : option float;
  timezone : option string;
  radius_in_miles : option float;
  area_code_list : option (list string);
  population : option Z;
  population_density : option float;
  land_area_in_sqmi : option float;
  water_area_in_sqmi : option float;
  housing_units : option Z;
  occupied_housing_units : option Z;
  median_home_value : option Z;
  median_household_income : option Z;
  bounds_west : option float;
  bounds_east : option float;
  bounds_north : option float;
  bounds_south : option float
}.

(** The three dictionaries the loop fills. *)
Record Indices : Type := mkIndices {
  zipcode_index : gmap string FastZipcode;
  city_state_index : gmap (string * string) (list FastZipcode);
  coordinate_grid : gmap (Z * Z) (list FastZipcode)
}.

Definition empty_indices : Indices := mkIndices ∅ ∅ ∅.

(** [if key not in d: d[key] = []] followed by [d[key].append(v)]. *)
Definition dict_append {K : Type} `{Countable K} {V : Type}
    (key : K) (v : V) (d : gmap K (list V)) : gmap K (list V) :=
  <[key := default [] (d !! key) ++ [v]]> d.

(** The list found under a key, empty when the key is not there:
    [d.get(key, [])]. *)
Definition bucket_at {K : Type} `{Countable K} {V : Type}
    (d : gmap K (list V)) (key : K) : list V :=
  default [] (d !! key).

(** String methods of Python's [str] and the decoder of [zipsearch.utils],
    none of which is code of the builder. *)
Record Externals : Type := mkExternals {
  str_strip : string -> string;
  str_title : string -> string;
  str_upper : string -> string;
  _decode_blob : option (list byte) -> option (list string)
}.

Section Builder.

Context (ext : Externals).

(** The [FastZipcode(...)] call of the loop body. *)
Definition make_record (row : Row) : FastZipcode :=
  {| zipcode := (Py.zfill 5) <$> Py.truthy (row_zipcode row);
     zipcode_type := row_zipcode_type row;
     major_city :=
       (fun s => str_title ext (str_strip ext s)) <$> Py.truthy (row_major_city row);
     post_office_city :=
       (fun s => str_title ext (str_strip ext s)) <$> Py.truthy (row_post_office_city row);
     common_city_list := _decode_blob ext (row_common_city_list_blob row);
     county := row_county row;
     state :=
       (fun s => str_upper ext (str_strip ext s)) <$> Py.truthy (row_state row);
     lat := row_lat row;
     lng := row_lng row;
     timezone := row_timezone row;
     radius_in_miles := row_radius_in_miles row;
     area_code_list := _decode_blob ext (row_area_code_list_blob row);
     population := row_population row;
     population_density := row_population_density row;
     land_area_in_sqmi := row_land_area_in_sqmi row;
     water_area_in_sqmi := row_water_area_in_sqmi row;
     housing_units := row_housing_units row;
     occupied_housing_units := row_occupied_housing_units row;
     median_home_value := row_median_home_value row;
     median_household_income := row_median_household_income row;
     bounds_west := row_bounds_west row;
     bounds_east := row_bounds_east row;
     bounds_north := row_bounds_north row;
     bounds_south := row_bounds_south row |}.

(** The key under which a record enters the city/state index, if it does. *)
Definition city_state_key (zipcode_data : FastZipcode) : option (string * string) :=
  match Py.truthy (major_city zipcode_data), Py.truthy (state zipcode_data) with
  | Some c, Some s => Some (c, s)
  | _, _ => None
  end.

(** The bucket of a record: [None] when a coordinate is missing, otherwise
    the outcome of the two [int(... * 10)] conversions, latitude first. *)
Definition grid_key (zipcode_data : FastZipcode) : option (result (Z * Z)) :=
  match lat zipcode_data, lng zipcode_data with
  | Some la, Some lo =>
      Some (let* lat_grid := Py.int_of_float (la * 10)%float in
            let* lng_grid := Py.int_of_float (lo * 10)%float in
            Ok (lat_grid, lng_grid))
  | _, _ => None
  end.

(** One iteration of [for row in cursor.fetchall()]. *)
Definition process_row (ix : Indices) (row : Row) : result Indices :=
  let zipcode_data := make_record row in
  let zi :=
    match Py.truthy (zipcode zipcode_data) with
    | Some code => <[code := zipcode_data]> (zipcode_index ix)
    | None => zipcode_index ix
    end in
  let cs :=
    match city_state_key zipcode_data with
    | Some key => dict_append key zipcode_data (city_state_index ix)
    | None => city_state_index ix
    end in
  match grid_key zipcode_data with
  | Some r =>
      let* key := r in
      Ok (mkIndices zi cs (dict_append key zipcode_data (coordinate_grid ix)))
  | None => Ok (mkIndices zi cs (coordinate_grid ix))
  end.

Fixpoint run_loop (ix : Indices) (rows : list Row) : result Indices :=
  match rows with
  | [] => Ok ix
  | row :: rest => let* ix' := process_row ix row in run_loop ix' rest
  end.

(** The three dictionaries after the whole loop. *)
Definition build_indices (rows : list Row) : result Indices :=
  run_loop empty_indices rows.

End Builder.

(** ** The script around the loop *)

(** What a path of the file system holds, as far as the builder can tell. *)
Inductive Database : Type :=
| NoFile
| Unreadable
| Table (rows : list Row).

Record World : Type := mkWorld {
  home : string;
  disk : string -> Database
}.

(** [Path(path).expanduser()] for the paths the builder tries: a leading
    ["~"] followed by nothing or by ["/"] is replaced by the home directory. *)
Definition expanduser (w : World) (path : string) : string :=
  match path with
  | String "~" EmptyString => home w
  | String "~" (String "/" rest) => home w +:+ String "/" rest
  | _ => path
  end.

Definition path_exists (w : World) (path : string) : bool :=
  match disk w path with
  | NoFile => false
  | _ => true
  end.

Definition possible_paths (w : World) : list string :=
  [ "simple_db.sqlite";
    "~/.zipsearch/simple_db.sqlite";
    home w +:+ "/.zipsearch/simple_db.sqlite" ].

(** The search for the database when no path is given. *)
Definition find_database (w : World) (sqlite_path : option string) : result string :=
  match sqlite_path with
  | Some path => Ok path
  | None =>
      match List.find (fun path => path_exists w (expanduser w path)) (possible_paths w) with
      | Some path => Ok (expanduser w path)
      | None => Raise FileNotFoundError
      end
  end.

(** [sqlite3.connect], the [SELECT] and [fetchall]: connecting to a missing
    file gives an empty database, on which the [SELECT] fails. *)
Definition fetchall (w : World) (path : string) : result (list Row) :=
  match disk w path with
  | Table rows => Ok rows
  | NoFile => Raise OperationalError
  | Unreadable => Raise DatabaseError
  end.

(** The value of one section of the container. *)
Inductive IndexValue : Type :=
| ZipcodeIndex (d : gmap string FastZipcode)
| CityStateIndex (d : gmap (string * string) (list FastZipcode))
| CoordinateGrid (d : gmap (Z * Z) (list FastZipcode)).

(** The dictionary literal [all_indices]. *)
Definition all_indices (ix : Indices) : list (string * IndexValue) :=
  [ ("zipcode_index", ZipcodeIndex (zipcode_index ix));
    ("city_state_index", CityStateIndex (city_state_index ix));
    ("coordinate_grid", CoordinateGrid (coordinate_grid ix)) ].

(** What a run does to the outside: the lines it prints and the files it
    writes.  The size in megabytes of the last-but-one line is left out. *)
Inductive Event : Type :=
| PrintBuildingFrom (path : string)
| Dump (path : string) (content : list (string * IndexValue))
| PrintBuilt (zipcodes : nat)
| PrintSavedTo (path : string).

Definition output_file : string := "indices.bin".

Section Script.

Context (ext : Externals).

(** [build_fast_indices(sqlite_path)]: the events of the run, in order, and
    how it ends. *)
Definition build_fast_indices (w : World) (sqlite_path : option string)
    : list Event * result unit :=
  match find_database w sqlite_path with
  | Raise e => ([], Raise e)
  | Ok path =>
      let started := [PrintBuildingFrom path] in
      match fetchall w path with
      | Raise e => (started, Raise e)
      | Ok rows =>
          match build_indices ext rows with
          | Raise e => (started, Raise e)
          | Ok ix =>
              (started ++
               [ Dump output_file (all_indices ix);
                 PrintBuilt (size (zipcode_index ix));
                 PrintSavedTo output_file ],
               Ok tt)
          end
      end
  end.

End Script.

Definition is_dump (e : Event) : bool :=
  match e with
  | Dump _ _ => true
  | _ => false
  end.

(** ** An ASCII instance of the string methods *)

Module AsciiStr.

Definition code (c : ascii) : nat := nat_of_ascii c.

Definition is_lower (c : ascii) : bool := ((97 <=? code c) && (code c <=? 122))%nat.
Definition is_upper (c : ascii) : bool := ((65 <=? code c) && (code c <=? 90))%nat.
Definition is_cased (c : ascii) : bool := is_lower c || is_upper c.

Definition is_space (c : ascii) : bool :=
  (((9 <=? code c) && (code c <=? 13)) || ((28 <=? code c) && (code c <=? 32)))%nat.

Definition to_upper (c : ascii) : ascii :=
  if is_lower c then ascii_of_nat (code c - 32) else c.

Definition to_lower (c : ascii) : ascii :=
  if is_upper c then ascii_of_nat (code c + 32) else c.

Fixpoint upper (s : string) : string :=
  match s with
  | EmptyString => EmptyString
  | String c rest => String (to_upper c) (upper rest)
  end.

Fixpoint title_from (previous_is_cased : bool) (s : string) : string :=
  match s with
  | EmptyString => EmptyString
  | String c rest =>
      String (if previous_is_cased then to_lower c else to_upper c)
             (title_from (is_cased c) rest)
  end.

Definition title (s : string) : string := title_from false s.

Fixpoint lstrip (s : string) : string :=
  match s with
  | EmptyString => EmptyString
  | String c rest => if is_space c then lstrip rest else s
  end.

Fixpoint rstrip (s : string) : string :=
  match s with
  | EmptyString => EmptyString
  | String c rest =>
      match rstrip rest with
      | EmptyString => if is_space c then EmptyString else String c EmptyString
      | kept => String c kept
      end
  end.

Definition strip (s : string) : string := rstrip (lstrip s).

(** The instance: ASCII string methods, and a decoder that finds no list. *)
Definition externals : Externals :=
  {| str_strip := strip;
     str_title := title;
     str_upper := upper;
     _decode_blob := fun _ => None |}.

End AsciiStr.

(** ** The radius query *)

(** Modelled from the spec: a record as the coordinate grid holds it.  The
    body of [by_coordinates] is not in the sources; by the spec the grid holds
    only records with coordinates, and the query reads a record's code and
    its two coordinates. *)
Record GridRecord : Type := mkGridRecord {
  rec_code : string;
  rec_lat : float;
  rec_lng : float
}.

(** The default of the [radius] parameter, in miles. *)
Definition default_radius : float := 25%float.

Section Engine.

(** Modelled from the spec: the engine's distance in miles between two
    points, as a function on floats, and the bucket keys a query scans. *)
Context (distance_miles : float -> float -> float -> float -> float)
        (scan_window : float -> float -> float -> list (Z * Z)).

(** Modelled from the spec: the candidate records are those of the scanned
    buckets, bucket after bucket. *)
Definition candidates (grid : gmap (Z * Z) (list GridRecord))
    (lat lng radius : float) : list GridRecord :=
  scan_window lat lng radius ≫= bucket_at grid.

(** Modelled from the spec: the sort key of a candidate, its distance from
    the query point and then its code. *)
Definition sort_key (lat lng : float) (r : GridRecord) : float * string :=
  (distance_miles lat lng (rec_lat r) (rec_lng r), rec_code r).

(** Modelled from the spec: ties on distance are broken by code.  This is
    [a < b] on (distance, code) pairs as Python compares tuples: by the
    first components unless they are equal, then by the second. *)
Definition key_lt (a b : float * string) : bool :=
  if (fst a =? fst b)%float then String.ltb (snd a) (snd b)
  else (fst a <? fst b)%float.

(** Modelled from the spec: the sort.  A stable sort by key that uses [<]
    on keys only, as [list.sort] does. *)
Fixpoint insert_by {A : Type} (key : A -> float * string) (x : A) (l : list A) : list A :=
  match l with
  | [] => [x]
  | y :: rest =>
      if key_lt (key x) (key y) then x :: l else y :: insert_by key x rest
  end.

Definition sort_by {A : Type} (key : A -> float * string) (l : list A) : list A :=
  foldl (fun sorted x => insert_by key x sorted) [] l.

(** Modelled from the spec: keep the candidates within the radius, sort
    them by distance and then code. *)
Definition by_coordinates (grid : gmap (Z * Z) (list GridRecord))
    (lat lng radius : float) : list GridRecord :=
  sort_by (sort_key lat lng)
    (filter (fun r => (fst (sort_key lat lng r) <=? radius)%float = true)
            (candidates grid lat lng radius)).

End Engine.

(** ** The distance formula *)

Definition earth_radius_miles : R := 3958.8%R.

Definition radians (degrees : R) : R := (degrees * PI / 180)%R.

(** Modelled from the spec: the body of [_haversine_distance] is not in the
    sources; this is the standard Haversine great-circle formula with mean
    Earth radius 3958.8 miles, over the real numbers. *)
Definition _haversine_distance (lat1 lng1 lat2 lng2 : R) : R :=
  let dlat := (radians lat2 - radians lat1)%R in
  let dlng := (radians lng2 - radians lng1)%R in
  let a := ((sin (dlat / 2))² +
            cos (radians lat1) * cos (radians lat2) * (sin (dlng / 2))²)%R in
  let c := (2 * asin (sqrt a))%R in
  (earth_radius_miles * c)%R.

(** ** Vocabulary of the statements *)

Definition is_ok {A : Type} (r : result A) : bool :=
  match r with
  | Ok _ => true
  | Raise _ => false
  end.

(** A row whose coordinates, when both are there, can be turned into a
    bucket: [int(lat * 10)] and [int(lng * 10)] are defined. *)
Definition finite_coordinates (row : Row) : bool :=
  match row_lat row, row_lng row with
  | Some la, Some lo =>
      is_ok (Py.int_of_float (la * 10)%float) && is_ok (Py.int_of_float (lo * 10)%float)
  | _, _ => true
  end.

(** Rounding the exact value of a float down, and toward zero. *)
Definition floor_of_float (x : float) : option Z :=
  (fun '(n, d) => n / d) <$> float_fraction x.

Definition trunc_of_float (x : float) : option Z :=
  (fun '(n, d) => n ÷ d) <$> float_fraction x.

(** The bucket of a record whose conversions succeed. *)
Definition bucket_of (zipcode_data : FastZipcode) : option (Z * Z) :=
  match grid_key zipcode_data with
  | Some (Ok key) => Some key
  | _ => None
  end.

(** The assignment [zipcode_index[code] = record], guarded by [if code:]. *)
Definition set_code (zi : gmap string FastZipcode) (zipcode_data : FastZipcode)
    : gmap string FastZipcode :=
  match Py.truthy (zipcode zipcode_data) with
  | Some code => <[code := zipcode_data]> zi
  | None => zi
  end.

(** The guarded append to a dictionary of lists. *)
Definition append_at {K : Type} `{Countable K} {V : Type}
    (keyf : V -> option K) (d : gmap K (list V)) (v : V) : gmap K (list V) :=
  match keyf v with
  | Some key => dict_append key v d
  | None => d
  end.


(** The database is found and holds the table. *)
Definition source_readable (w : World) (sqlite_path : option string) : Prop :=
  exists path rows, find_database w sqlite_path = Ok path /\ disk w path = Table rows.

(** ** Vocabulary of the order on sort keys *)

(** A place on the number line for every float but NaN: a class, and within
    the class of the finite values of one sign the exponent and the
    mantissa. *)
Definition sf_rank (f : spec_float) : option (Z * Z * Z) :=
  match f with
  | S754_nan => None
  | S754_infinity true => Some (-2, 0, 0)
  | S754_finite true m e => Some (-1, - e, Z.neg m)
  | S754_zero _ => Some (0, 0, 0)
  | S754_finite false m e => Some (1, e, Z.pos m)
  | S754_infinity false => Some (2, 0, 0)
  end.

Definition lex3 (a b : Z * Z * Z) : comparison :=
  match a.1.1 ?= b.1.1 with
  | Eq => match a.1.2 ?= b.1.2 with
          | Eq => a.2 ?= b.2
          | c => c
          end
  | c => c
  end.

Definition rank (x : float) : option (Z * Z * Z) := sf_rank (Prim2SF x).

(** [a <= b] on keys: below by the first component, or level on it and not
    above by the second. *)
Definition key_le (a b : float * string) : Prop :=
  (a.1 <? b.1)%float = true \/
  ((a.1 =? b.1)%float = true /\ String.leb a.2 b.2 = true).

Definition ordered {A : Type} (key : A -> float * string) (x y : A) : Prop :=
  key_le (key x) (key y).

Definition comparable {A : Type} (key : A -> float * string) (x : A) : Prop :=
  is_Some (rank (key x).1).

(** ** Sample rows *)

Definition sample_row (code city st : option string) (la lo : option float) : Row :=
  {| row_zipcode := code;
     row_zipcode_type := Some "STANDARD";
     row_major_city := city;
     row_post_office_city := None;
     row_common_city_list_blob := None;
     row_county := None;
     row_state := st;
     row_lat := la;
     row_lng := lo;
     row_timezone := None;
     row_radius_in_miles := None;
     row_area_code_list_blob := None;
     row_population := None;
     row_population_density := None;
     row_land_area_in_sqmi := None;
     row_water_area_in_sqmi := None;
     row_housing_units := None;
     row_occupied_housing_units := None;
     row_median_home_value := None;
     row_median_household_income := None;
     row_bounds_west := None;
     row_bounds_east := None;
     row_bounds_north := None;
     row_bounds_south := None |}.

(** * A sample source *)

Definition row_beverly : Row :=
  sample_row (Some "90210") (Some " beverly hills ") (Some "ca")
             (Some 34.125%float) (Some (-118.375)%float).

Definition row_beverly_again : Row :=
  sample_row (Some "90210") (Some "Los Angeles") (Some "CA")
             (Some 34.5%float) (Some (-118.5)%float).

Definition row_holtsville : Row :=
  sample_row (Some "501") (Some "holtsville") (Some "ny")
             (Some 40.75%float) (Some (-73.0625)%float).

Definition row_no_code : Row :=
  sample_row None (Some "beverly hills") (Some "CA")
             (Some 34.125%float) (Some (-118.375)%float).

Definition row_long_code : Row :=
  sample_row (Some "9021-0456") (Some "beverly hills") None None None.

Definition sample_source : list Row :=
  [row_beverly; row_holtsville; row_no_code; row_beverly_again; row_long_code].

(** A world whose working directory holds the database with the given rows,
    and a world without any database. *)
Definition sample_world (rows : list Row) : World :=
  {| home := "/home/user";
     disk := fun path => if String.eqb path "simple_db.sqlite" then Table rows else NoFile |}.

Definition empty_world : World :=
  {| home := "/home/user"; disk := fun _ => NoFile |}.

Definition broken_world : World :=
  {| home := "/home/user";
     disk := fun path => if String.eqb path "simple_db.sqlite" then Unreadable else NoFile |}.

(** A grid of two buckets, and stand-ins for the two parameters of the
    radius query: the distance in degrees along the axes, and a window of
    the two buckets of the grid. *)
Definition sample_grid : gmap (Z * Z) (list GridRecord) :=
  {[ (341, -1184) := [ mkGridRecord "90211" 34.125 (-118.375);
                       mkGridRecord "90210" 34.125 (-118.375);
                       mkGridRecord "90212" 34.1875 (-118.4375) ];
     (342, -1184) := [ mkGridRecord "90077" 34.25 (-118.4375);
                       mkGridRecord "91436" 34.75 (-118.4375) ] ]}.

Definition axis_distance (lat1 lng1 lat2 lng2 : float) : float :=
  (abs (lat1 - lat2) + abs (lng1 - lng2))%float.

Definition two_buckets (lat lng radius : float) : list (Z * Z) :=
  [(342, -1184); (341, -1184)].

(** ** The benchmark's test data *)

(** [data * k]: [k] copies of a list, one after the other. *)
Definition repeat_list {A : Type} (data : list A) (k : nat) : list A :=
  mjoin (replicate k data).

(** [(data * ((test_size // len(data)) + 1))[:test_size]], the cycle through
    the test data of [speed_tester.py]; [None] is the [ZeroDivisionError] of
    an empty [data]. *)
Definition cycle {A : Type} (data : list A) (test_size : nat) : option (list A) :=
  match length data with
  | O => None
  | S _ => Some (take test_size (repeat_list data (test_size / length data + 1)))
  end.

(** ** Vocabulary of further statements *)

(** The padded codes of the rows that have a code, in source order. *)
Definition padded_codes (rows : list Row) : list string :=
  omap (fun row => Py.zfill 5 <$> Py.truthy (row_zipcode row)) rows.

(** The number of records held by a dictionary of lists, all keys taken
    together: [sum(len(v) for v in d.values())]. *)
Definition total_records {K : Type} `{Countable K} {V : Type}
    (d : gmap K (list V)) : nat :=
  map_fold (fun _ l n => (length l + n)%nat) 0%nat d.

(** A row whose coordinates are infinite. *)
Definition row_nowhere : Row :=
  sample_row (Some "99999") (Some "nowhere") (Some "zz")
             (Some infinity) (Some neg_infinity).

(** * Facts about the built-ins *)

Lemma truthy_Some (o : option string) (s : string) :
  Py.truthy o = Some s -> o = Some s /\ s <> "".
Proof.
  destruct o as [[|c rest]|]; simpl; intros Heq; inversion Heq; subst.
  split; [reflexivity | discriminate].
Qed.

Lemma truthy_nonempty (s : string) : s <> "" -> Py.truthy (Some s) = Some s.
Proof. destruct s; [congruence | reflexivity]. Qed.

Lemma length_zeros (n : nat) : String.length (Py.zeros n) = n.
Proof. induction n; simpl; congruence. Qed.

Lemma append_cons (c : ascii) (s t : string) :
  String c s +:+ t = String c (s +:+ t).
Proof. reflexivity. Qed.

Lemma length_append (s t : string) :
  String.length (s +:+ t) = (String.length s + String.length t)%nat.
Proof.
  induction s as [|c s IH]; [reflexivity|].
  rewrite append_cons. simpl. congruence.
Qed.

Lemma append_empty_r (s : string) : s +:+ "" = s.
Proof.
  induction s as [|c s IH]; [reflexivity|].
  rewrite append_cons. congruence.
Qed.

Lemma zfill_length (width : nat) (s : string) :
  String.length (Py.zfill width s) = Nat.max width (String.length s).
Proof.
  unfold Py.zfill. destruct (width <=? String.length s)%nat eqn:Hle.
  - apply Nat.leb_le in Hle. lia.
  - apply Nat.leb_gt in Hle. destruct s as [|c rest].
    + rewrite length_zeros. simpl. lia.
    + destruct (Py.is_sign c); simpl String.length;
        rewrite ?length_append, ?length_zeros; simpl in *; lia.
Qed.

Lemma zfill_nonempty (s : string) : s <> "" -> Py.zfill 5 s <> "".
Proof.
  intros Hs Hz. pose proof (zfill_length 5 s) as Hlen.
  rewrite Hz in Hlen. simpl in Hlen. lia.
Qed.

Lemma all_digits_append (s t : string) :
  Py.all_digits (s +:+ t) = Py.all_digits s && Py.all_digits t.
Proof.
  induction s as [|c s IH]; [reflexivity|].
  rewrite append_cons. simpl. rewrite IH. apply andb_assoc.
Qed.

Lemma all_digits_zeros (n : nat) : Py.all_digits (Py.zeros n) = true.
Proof. induction n; simpl; auto. Qed.

Lemma digit_not_sign (c : ascii) : Py.is_digit c = true -> Py.is_sign c = false.
Proof.
  unfold Py.is_sign. intros Hd.
  destruct (Ascii.eqb_spec c "+") as [->|_]; [discriminate Hd|].
  destruct (Ascii.eqb_spec c "-") as [->|_]; [discriminate Hd|].
  reflexivity.
Qed.

(** Padding a short string of digits: zeros in front, five digits in all. *)
Lemma zfill_digits (s : string) :
  Py.all_digits s = true -> (String.length s <= 5)%nat ->
  Py.zfill 5 s = Py.zeros (5 - String.length s) +:+ s /\
  Py.all_digits (Py.zfill 5 s) = true.
Proof.
  intros Hd Hlen.
  assert (Heq : Py.zfill 5 s = Py.zeros (5 - String.length s) +:+ s).
  { unfold Py.zfill. destruct (5 <=? String.length s)%nat eqn:Hle.
    - apply Nat.leb_le in Hle.
      replace (5 - String.length s)%nat with 0%nat by lia. reflexivity.
    - destruct s as [|c rest]; simpl.
      + symmetry. apply append_empty_r.
      + simpl in Hd. apply andb_true_iff in Hd as [Hc _].
        rewrite (digit_not_sign _ Hc). reflexivity. }
  split; [exact Heq|].
  rewrite Heq, all_digits_append, all_digits_zeros, Hd. reflexivity.
Qed.

(** [int] rounds the exact value toward zero. *)
Lemma int_of_float_trunc (x : float) (z : Z) :
  Py.int_of_float x = Ok z <-> trunc_of_float x = Some z.
Proof.
  unfold Py.int_of_float, trunc_of_float, float_fraction.
  destruct (Prim2SF x) as [s|s| |s m e]; simpl; try (split; congruence).
  - split; intros Heq; inversion Heq; reflexivity.
  - destruct (Z.leb_spec 0 e) as [He|He]; simpl.
    + rewrite Z.quot_1_r. destruct s; split; intros Heq; inversion Heq; f_equal; lia.
    + assert (Hpow : 0 < 2 ^ (- e)) by (apply Z.pow_pos_nonneg; lia).
      destruct s.
      * change (Z.neg m) with (- Z.pos m).
        rewrite Z.quot_opp_l by lia.
        rewrite Z.quot_div_nonneg by lia.
        split; intros Heq; inversion Heq; reflexivity.
      * rewrite Z.quot_div_nonneg by lia.
        split; intros Heq; inversion Heq; reflexivity.
Qed.

Lemma float_fraction_pos (x : float) (n d : Z) :
  float_fraction x = Some (n, d) -> 0 < d.
Proof.
  unfold float_fraction.
  destruct (Prim2SF x) as [s|s| |s m e]; try discriminate.
  - intros Heq; inversion Heq; lia.
  - destruct (Z.leb_spec 0 e) as [He|He]; intros Heq; inversion Heq; subst; [lia|].
    apply Z.pow_pos_nonneg; lia.
Qed.

(** Rounding toward zero against rounding down: the same for values that
    are not negative or are whole, one more otherwise. *)
Lemma trunc_vs_floor (n d : Z) :
  0 < d ->
  n ÷ d = if (0 <=? n) || (n mod d =? 0) then n / d else n / d + 1.
Proof.
  intros Hd. destruct (Z.leb_spec 0 n) as [Hn|Hn]; simpl.
  - apply Z.quot_div_nonneg; lia.
  - assert (Hd0 : d <> 0) by lia. pose proof (Z.div_mod n d Hd0) as Hdm.
    pose proof (Z.mod_pos_bound n d Hd) as Hmod.
    pose proof (Z.quot_rem' n d) as Hqr.
    assert (Hn0 : n <= 0) by lia. pose proof (Z.rem_bound_pos_neg n d Hd Hn0) as Hrem.
    set (q := n ÷ d) in *. set (r := Z.rem n d) in *.
    set (f := n / d) in *. set (m := n mod d) in *.
    assert (Hk : d * (q - f) = m - r) by lia.
    assert (Hlo : -1 < q - f) by nia.
    assert (Hhi : q - f < 2) by nia.
    destruct (Z.eqb_spec m 0) as [Hz|Hz].
    + assert (q - f = 0) by nia. lia.
    + assert (q - f = 1) by nia. lia.
Qed.

(** * Facts about the dictionaries *)

Section DictFacts.

Context {K : Type} `{Countable K} {V : Type}.
Implicit Types (d : gmap K (list V)) (keyf : V -> option K).

Lemma bucket_at_append keyf d (v : V) (key : K) :
  bucket_at (append_at keyf d v) key =
  bucket_at d key ++ (if decide (keyf v = Some key) then [v] else []).
Proof.
  unfold append_at, bucket_at, dict_append.
  destruct (keyf v) as [k|] eqn:Hk.
  - destruct (decide (k = key)) as [->|Hne].
    + rewrite lookup_insert_eq. rewrite decide_True by reflexivity. reflexivity.
    + rewrite lookup_insert_ne by exact Hne.
      rewrite decide_False by congruence. symmetry. apply app_nil_r.
  - rewrite decide_False by congruence. symmetry. apply app_nil_r.
Qed.

(** After any number of appends, the list under a key is what was there
    before followed by the appended values of that key, in order. *)
Lemma bucket_at_foldl keyf d (vs : list V) (key : K) :
  bucket_at (foldl (append_at keyf) d vs) key =
  bucket_at d key ++ filter (fun v => keyf v = Some key) vs.
Proof.
  induction vs as [|v vs IH] using rev_ind.
  - simpl. symmetry. apply app_nil_r.
  - rewrite foldl_snoc, bucket_at_append, IH, filter_app, <- app_assoc.
    reflexivity.
Qed.

Lemma lookup_append_at keyf d (v : V) (key : K) :
  is_Some (append_at keyf d v !! key) <->
  is_Some (d !! key) \/ keyf v = Some key.
Proof.
  unfold append_at, dict_append. destruct (keyf v) as [k|] eqn:Hk.
  - destruct (decide (k = key)) as [->|Hne].
    + rewrite lookup_insert_eq. split; [intros _; right; reflexivity | eauto].
    + rewrite lookup_insert_ne by exact Hne.
      split; [tauto | intros [?|?]; [assumption | congruence]].
  - split; [tauto | intros [?|?]; [assumption | congruence]].
Qed.

(** A key is in the dictionary exactly when it was there or was appended to. *)
Lemma lookup_foldl_append keyf d (vs : list V) (key : K) :
  is_Some (foldl (append_at keyf) d vs !! key) <->
  is_Some (d !! key) \/ exists v, v ∈ vs /\ keyf v = Some key.
Proof.
  induction vs as [|v vs IH] using rev_ind.
  - simpl. split; [tauto | intros [?|(v & Hin & _)]; [assumption|]].
    apply elem_of_nil in Hin. contradiction.
  - rewrite foldl_snoc, lookup_append_at, IH. split.
    + intros [[?|(v' & Hin & Hk)]|Hk]; [left; assumption| |].
      * right. exists v'. split; [apply elem_of_app; left; exact Hin | exact Hk].
      * right. exists v. split; [apply elem_of_app; right; apply list_elem_of_singleton; reflexivity | exact Hk].
    + intros [?|(v' & Hin & Hk)]; [left; left; assumption|].
      apply elem_of_app in Hin as [Hin|Hin].
      * left. right. exists v'. split; assumption.
      * apply list_elem_of_singleton in Hin. subst. right. exact Hk.
Qed.

End DictFacts.

(** After any number of guarded assignments, a code maps to the last
    record that carries it. *)
Lemma lookup_foldl_set_code (zi : gmap string FastZipcode)
    (records : list FastZipcode) (code : string) :
  foldl set_code zi records !! code =
  match last (filter (fun r => Py.truthy (zipcode r) = Some code) records) with
  | Some r => Some r
  | None => zi !! code
  end.
Proof.
  induction records as [|r records IH] using rev_ind.
  - reflexivity.
  - rewrite foldl_snoc, filter_app, filter_cons, filter_nil.
    unfold set_code at 1.
    destruct (Py.truthy (zipcode r)) as [c|] eqn:Hc.
    + destruct (decide (c = code)) as [->|Hne].
      * rewrite lookup_insert_eq, decide_True by reflexivity.
        rewrite last_snoc. reflexivity.
      * rewrite lookup_insert_ne by exact Hne.
        rewrite decide_False by congruence. rewrite app_nil_r. exact IH.
    + rewrite decide_False by congruence. rewrite app_nil_r. exact IH.
Qed.

(** * Facts about the loop *)

Section LoopFacts.

Context (ext : Externals).

Lemma grid_key_finite (row : Row) :
  finite_coordinates row = true <->
  forall e, grid_key (make_record ext row) <> Some (Raise e).
Proof.
  unfold finite_coordinates, grid_key. simpl.
  destruct (row_lat row) as [la|], (row_lng row) as [lo|]; simpl;
    try (split; [intros _ e; discriminate | reflexivity]).
  destruct (Py.int_of_float (la * 10)%float) as [a|e1]; simpl.
  - destruct (Py.int_of_float (lo * 10)%float) as [b|e2]; simpl.
    + split; [intros _ e; discriminate | reflexivity].
    + split; [discriminate | intros Hne; exfalso; apply (Hne e2); reflexivity].
  - split; [discriminate | intros Hne; exfalso; apply (Hne e1); reflexivity].
Qed.

(** One iteration either raises, on a coordinate that has no bucket, or
    performs the three guarded insertions. *)
Lemma process_row_Ok (ix ix' : Indices) (row : Row) :
  process_row ext ix row = Ok ix' <->
  finite_coordinates row = true /\
  ix' = mkIndices
          (set_code (zipcode_index ix) (make_record ext row))
          (append_at city_state_key (city_state_index ix) (make_record ext row))
          (append_at bucket_of (coordinate_grid ix) (make_record ext row)).
Proof.
  unfold process_row, set_code, append_at, bucket_of.
  pose proof (grid_key_finite row) as Hfin.
  destruct (grid_key (make_record ext row)) as [[key|e]|] eqn:Hkey; simpl.
  - split.
    + intros Heq; inversion Heq; subst. split; [|reflexivity].
      apply Hfin. intros e; discriminate.
    + intros [_ ->]. reflexivity.
  - split; [discriminate|]. intros [Hf _].
    exfalso. apply (proj1 Hfin Hf e). reflexivity.
  - split.
    + intros Heq; inversion Heq; subst. split; [|reflexivity].
      apply Hfin. intros e; discriminate.
    + intros [_ ->]. reflexivity.
Qed.

Lemma run_loop_Ok (rows : list Row) (ix ix' : Indices) :
  run_loop ext ix rows = Ok ix' <->
  Forall (fun row => finite_coordinates row = true) rows /\
  ix' = mkIndices
          (foldl set_code (zipcode_index ix) (make_record ext <$> rows))
          (foldl (append_at city_state_key) (city_state_index ix) (make_record ext <$> rows))
          (foldl (append_at bucket_of) (coordinate_grid ix) (make_record ext <$> rows)).
Proof.
  revert ix. induction rows as [|row rows IH]; intros ix; simpl.
  - destruct ix. simpl. split.
    + intros Heq; inversion Heq; subst. split; [constructor | reflexivity].
    + intros [_ ->]. reflexivity.
  - destruct (process_row ext ix row) as [ix1|e] eqn:Hrow; simpl.
    + apply process_row_Ok in Hrow as [Hfin ->]. rewrite IH. simpl.
      rewrite Forall_cons. tauto.
    + split; [discriminate|]. intros [Hall _].
      apply Forall_cons in Hall as [Hfin _].
      assert (Hok : exists ix1, process_row ext ix row = Ok ix1).
      { eexists. apply process_row_Ok. split; [exact Hfin | reflexivity]. }
      destruct Hok as [ix1 Hok]. congruence.
Qed.

(** The loop completes exactly on sources whose coordinates have buckets,
    and then its three dictionaries have the following contents. *)
Lemma build_indices_Ok (rows : list Row) :
  Forall (fun row => finite_coordinates row = true) rows ->
  exists ix,
    build_indices ext rows = Ok ix /\
    (forall code,
       zipcode_index ix !! code =
       last (filter (fun r => Py.truthy (zipcode r) = Some code) (make_record ext <$> rows))) /\
    (forall key,
       bucket_at (city_state_index ix) key =
       filter (fun r => city_state_key r = Some key) (make_record ext <$> rows)) /\
    (forall key,
       bucket_at (coordinate_grid ix) key =
       filter (fun r => bucket_of r = Some key) (make_record ext <$> rows)) /\
    (forall key,
       is_Some (city_state_index ix !! key) <->
       exists r, r ∈ make_record ext <$> rows /\ city_state_key r = Some key) /\
    (forall key,
       is_Some (coordinate_grid ix !! key) <->
       exists r, r ∈ make_record ext <$> rows /\ bucket_of r = Some key).
Proof.
  intros Hall. eexists. split.
  { apply run_loop_Ok. split; [exact Hall | reflexivity]. }
  simpl. repeat split.
  - intros code. rewrite lookup_foldl_set_code, lookup_empty.
    destruct (last _); reflexivity.
  - intros key. rewrite bucket_at_foldl. reflexivity.
  - intros key. rewrite bucket_at_foldl. reflexivity.
  - rewrite lookup_foldl_append, lookup_empty.
    intros [[x Hx]|Hex]; [discriminate | exact Hex].
  - intros Hex. apply lookup_foldl_append. right. exact Hex.
  - rewrite lookup_foldl_append, lookup_empty.
    intros [[x Hx]|Hex]; [discriminate | exact Hex].
  - intros Hex. apply lookup_foldl_append. right. exact Hex.
Qed.

End LoopFacts.

Lemma sample_source_finite :
  Forall (fun row => finite_coordinates row = true) sample_source.
Proof. repeat (constructor; [vm_compute; reflexivity|]). constructor. Defined.

(** * Facts about records *)

Lemma record_code (ext : Externals) (row : Row) (code : string) :
  Py.truthy (zipcode (make_record ext row)) = Some code <->
  exists raw, Py.truthy (row_zipcode row) = Some raw /\ code = Py.zfill 5 raw.
Proof.
  change (zipcode (make_record ext row))
    with (Py.zfill 5 <$> Py.truthy (row_zipcode row)).
  destruct (Py.truthy (row_zipcode row)) as [raw|] eqn:Hraw.
  - apply truthy_Some in Hraw as [_ Hne].
    change (Py.zfill 5 <$> Some raw) with (Some (Py.zfill 5 raw)).
    rewrite (truthy_nonempty _ (zfill_nonempty raw Hne)).
    split.
    + intros Heq; inversion Heq. exists raw. split; reflexivity.
    + intros (raw' & Heq & ->). inversion Heq. reflexivity.
  - split; [discriminate | intros (raw' & Heq & _); discriminate].
Qed.

Lemma record_no_code (ext : Externals) (row : Row) :
  Py.truthy (row_zipcode row) = None -> zipcode (make_record ext row) = None.
Proof. simpl. intros ->. reflexivity. Qed.

Lemma city_state_key_Some (r : FastZipcode) (city st : string) :
  city_state_key r = Some (city, st) <->
  Py.truthy (major_city r) = Some city /\ Py.truthy (state r) = Some st.
Proof.
  unfold city_state_key.
  destruct (Py.truthy (major_city r)) as [c|], (Py.truthy (state r)) as [s|];
    split; try discriminate; try (intros [? ?]; discriminate).
  - intros Heq; inversion Heq; split; reflexivity.
  - intros [Hc Hs]; inversion Hc; inversion Hs; reflexivity.
Qed.

Lemma bucket_of_present (ext : Externals) (row : Row) (la lo : float) :
  finite_coordinates row = true ->
  row_lat row = Some la -> row_lng row = Some lo ->
  exists key, bucket_of (make_record ext row) = Some key.
Proof.
  unfold finite_coordinates, bucket_of, grid_key. simpl.
  intros Hfin Hla Hlo. rewrite Hla, Hlo in *.
  destruct (Py.int_of_float (la * 10)) as [a|]; [|discriminate].
  destruct (Py.int_of_float (lo * 10)) as [b|]; [|discriminate].
  exists (a, b). reflexivity.
Qed.

Lemma bucket_of_coordinates (r : FastZipcode) (key : Z * Z) :
  bucket_of r = Some key -> is_Some (lat r) /\ is_Some (lng r).
Proof.
  unfold bucket_of, grid_key.
  destruct (lat r), (lng r); try discriminate. eauto.
Qed.

(** The last record that passes a test, in a list with a known passing one. *)
Lemma last_filter_from {A : Type} (P : A -> Prop) `{forall x, Decision (P x)}
    (l1 l2 : list A) (x : A) :
  P x ->
  exists y, last (filter P (l1 ++ x :: l2)) = Some y /\ y ∈ x :: l2.
Proof.
  intros Hx. rewrite filter_app, filter_cons_True, last_app, last_cons by exact Hx.
  destruct (last (filter P l2)) as [y|] eqn:Hl.
  - exists y. split; [reflexivity|]. apply elem_of_cons. right.
    apply last_Some_elem_of in Hl. apply list_elem_of_filter in Hl. tauto.
  - exists x. split; [reflexivity|]. apply elem_of_cons. left. reflexivity.
Qed.

(** * The bucket of a record (C1) *)

Lemma trunc_of_float_floor (x : float) (a : Z) :
  trunc_of_float x = Some a ->
  exists f, floor_of_float x = Some f /\
            (a = f \/ (a = f + 1 /\ a <= 0)) /\ (0 <= f -> a = f).
Proof.
  unfold trunc_of_float, floor_of_float.
  destruct (float_fraction x) as [[n d]|] eqn:Hfr; simpl; [|discriminate].
  intros Heq; inversion Heq as [Ha]; clear Heq.
  pose proof (float_fraction_pos _ _ _ Hfr) as Hd.
  exists (n / d). split; [reflexivity|].
  rewrite (trunc_vs_floor n d Hd).
  destruct (Z.leb_spec 0 n) as [Hn|Hn]; simpl; [lia|].
  assert (Hneg : n / d < 0) by (apply Z.div_lt_upper_bound; lia).
  destruct (Z.eqb_spec (n mod d) 0); lia.
Qed.

(** C1, as the code has it.  On a source whose coordinates all have buckets,
    the build completes and every row with both [lat] and [lng] present has
    its record in the coordinate grid under the pair obtained by rounding
    [lat * 10] and [lng * 10] toward zero.  That pair is the floor pair when
    the products are not negative; a negative product that is not whole is
    rounded up, to the floor plus one. *)
Theorem grid_bucket_truncates (ext : Externals) (rows : list Row) :
  Forall (fun row => finite_coordinates row = true) rows ->
  exists ix,
    build_indices ext rows = Ok ix /\
    forall row la lo,
      row ∈ rows -> row_lat row = Some la -> row_lng row = Some lo ->
      exists a b fa fb,
        trunc_of_float (la * 10) = Some a /\
        trunc_of_float (lo * 10) = Some b /\
        make_record ext row ∈ bucket_at (coordinate_grid ix) (a, b) /\
        floor_of_float (la * 10) = Some fa /\
        floor_of_float (lo * 10) = Some fb /\
        (a = fa \/ (a = fa + 1 /\ a <= 0)) /\
        (b = fb \/ (b = fb + 1 /\ b <= 0)) /\
        (0 <= fa -> a = fa) /\ (0 <= fb -> b = fb).
Proof.
  intros Hall.
  destruct (build_indices_Ok ext rows Hall) as (ix & Hix & _ & _ & Hgrid & _).
  exists ix. split; [exact Hix|].
  intros row la lo Hin Hla Hlo.
  pose proof (proj1 (Forall_forall _ _) Hall row Hin) as Hfin.
  unfold finite_coordinates in Hfin. rewrite Hla, Hlo in Hfin.
  apply andb_true_iff in Hfin as [Ha Hb].
  destruct (Py.int_of_float (la * 10)) as [a|] eqn:Hia; [|discriminate].
  destruct (Py.int_of_float (lo * 10)) as [b|] eqn:Hib; [|discriminate].
  pose proof (proj1 (int_of_float_trunc _ _) Hia) as Hta.
  pose proof (proj1 (int_of_float_trunc _ _) Hib) as Htb.
  destruct (trunc_of_float_floor _ _ Hta) as (fa & Hfa & Hca & Hpa).
  destruct (trunc_of_float_floor _ _ Htb) as (fb & Hfb & Hcb & Hpb).
  exists a, b, fa, fb. repeat split; try assumption.
  rewrite Hgrid. apply list_elem_of_filter. split.
  - unfold bucket_of, grid_key. simpl. rewrite Hla, Hlo. simpl.
    rewrite Hia. simpl. rewrite Hib. reflexivity.
  - apply list_elem_of_fmap_2. exact Hin.
Qed.

Lemma grid_bucket_truncates_witness :
  Forall (fun row => finite_coordinates row = true) sample_source /\
  exists ix,
    build_indices AsciiStr.externals sample_source = Ok ix /\
    forall row la lo,
      row ∈ sample_source -> row_lat row = Some la -> row_lng row = Some lo ->
      exists a b fa fb,
        trunc_of_float (la * 10) = Some a /\
        trunc_of_float (lo * 10) = Some b /\
        make_record AsciiStr.externals row ∈ bucket_at (coordinate_grid ix) (a, b) /\
        floor_of_float (la * 10) = Some fa /\
        floor_of_float (lo * 10) = Some fb /\
        (a = fa \/ (a = fa + 1 /\ a <= 0)) /\
        (b = fb \/ (b = fb + 1 /\ b <= 0)) /\
        (0 <= fa -> a = fa) /\ (0 <= fb -> b = fb).
Proof.
  split; [exact sample_source_finite|].
  apply (grid_bucket_truncates AsciiStr.externals sample_source).
  exact sample_source_finite.
Defined.

(** C1, as the spec words it, fails on a negative longitude: the record of
    the row at (34.125, -118.375) is stored under (341, -1183), and the
    floor pair (341, -1184) holds nothing. *)
Lemma grid_bucket_not_floor :
  exists ix,
    build_indices AsciiStr.externals [row_beverly] = Ok ix /\
    floor_of_float (34.125 * 10) = Some 341 /\
    floor_of_float (-118.375 * 10) = Some (-1184) /\
    bucket_at (coordinate_grid ix) (341, -1184) = [] /\
    bucket_at (coordinate_grid ix) (341, -1183) =
      [make_record AsciiStr.externals row_beverly].
Proof.
  eexists. split; [vm_compute; reflexivity|].
  repeat split; vm_compute; reflexivity.
Qed.

(** * Rows without a code (C2) *)

Lemma build_fast_indices_Ok (ext : Externals) (w : World) (path : string)
    (rows : list Row) (ix : Indices) :
  fetchall w path = Ok rows ->
  build_indices ext rows = Ok ix ->
  build_fast_indices ext w (Some path) =
    ([ PrintBuildingFrom path;
       Dump output_file (all_indices ix);
       PrintBuilt (size (zipcode_index ix));
       PrintSavedTo output_file ],
     Ok tt).
Proof.
  intros Hfetch Hbuild. unfold build_fast_indices. simpl.
  rewrite Hfetch, Hbuild. reflexivity.
Qed.

(** C2, as the code has it.  A row whose raw code is empty or null is left
    out of the zipcode index only: its record has no code and is no value of
    the zipcode index, and it is still in the city/state index when city
    and state are present and in the coordinate grid when both coordinates
    are present.  The rows after it are processed as usual, every row with a
    code being found under it, and a completed run prints its opening line
    and its two closing lines around the write, and nothing per row. *)
Theorem row_without_code_kept_elsewhere (ext : Externals) (rows : list Row) :
  Forall (fun row => finite_coordinates row = true) rows ->
  exists ix,
    build_indices ext rows = Ok ix /\
    (forall row,
       row ∈ rows -> Py.truthy (row_zipcode row) = None ->
       zipcode (make_record ext row) = None /\
       (forall code, zipcode_index ix !! code <> Some (make_record ext row)) /\
       (forall city st,
          Py.truthy (major_city (make_record ext row)) = Some city ->
          Py.truthy (state (make_record ext row)) = Some st ->
          make_record ext row ∈ bucket_at (city_state_index ix) (city, st)) /\
       (forall la lo,
          row_lat row = Some la -> row_lng row = Some lo ->
          exists key,
            bucket_of (make_record ext row) = Some key /\
            make_record ext row ∈ bucket_at (coordinate_grid ix) key)) /\
    (forall row raw,
       row ∈ rows -> Py.truthy (row_zipcode row) = Some raw ->
       is_Some (zipcode_index ix !! Py.zfill 5 raw)) /\
    (forall w path,
       fetchall w path = Ok rows ->
       build_fast_indices ext w (Some path) =
         ([ PrintBuildingFrom path;
            Dump output_file (all_indices ix);
            PrintBuilt (size (zipcode_index ix));
            PrintSavedTo output_file ],
          Ok tt)).
Proof.
  intros Hall.
  destruct (build_indices_Ok ext rows Hall) as (ix & Hix & Hzip & Hcity & Hgrid & _).
  exists ix. split; [exact Hix|]. split; [|split].
  - intros row Hin Hnone. repeat split.
    + apply record_no_code. exact Hnone.
    + intros code Hlook. rewrite Hzip in Hlook.
      apply last_Some_elem_of, list_elem_of_filter in Hlook as [Hcode _].
      rewrite (record_no_code ext row Hnone) in Hcode. discriminate.
    + intros city st Hc Hs. rewrite Hcity. apply list_elem_of_filter. split.
      * apply city_state_key_Some. split; assumption.
      * apply list_elem_of_fmap_2. exact Hin.
    + intros la lo Hla Hlo.
      pose proof (proj1 (Forall_forall _ _) Hall row Hin) as Hfin.
      destruct (bucket_of_present ext row la lo Hfin Hla Hlo) as [key Hkey].
      exists key. split; [exact Hkey|].
      rewrite Hgrid. apply list_elem_of_filter. split; [exact Hkey|].
      apply list_elem_of_fmap_2. exact Hin.
  - intros row raw Hin Hraw. rewrite Hzip.
    destruct (last _) as [r|] eqn:Hlast; [eauto|].
    apply last_None in Hlast. exfalso.
    apply (filter_nil_not_elem_of _ _ (make_record ext row) Hlast).
    + apply record_code. exists raw. split; [exact Hraw | reflexivity].
    + apply list_elem_of_fmap_2. exact Hin.
  - intros w path Hfetch. apply (build_fast_indices_Ok ext w path rows ix); assumption.
Qed.

Lemma row_without_code_kept_elsewhere_witness :
  Forall (fun row => finite_coordinates row = true) sample_source /\
  exists ix,
    build_indices AsciiStr.externals sample_source = Ok ix /\
    (forall row,
       row ∈ sample_source -> Py.truthy (row_zipcode row) = None ->
       zipcode (make_record AsciiStr.externals row) = None /\
       (forall code, zipcode_index ix !! code <> Some (make_record AsciiStr.externals row)) /\
       (forall city st,
          Py.truthy (major_city (make_record AsciiStr.externals row)) = Some city ->
          Py.truthy (state (make_record AsciiStr.externals row)) = Some st ->
          make_record AsciiStr.externals row ∈ bucket_at (city_state_index ix) (city, st)) /\
       (forall la lo,
          row_lat row = Some la -> row_lng row = Some lo ->
          exists key,
            bucket_of (make_record AsciiStr.externals row) = Some key /\
            make_record AsciiStr.externals row ∈ bucket_at (coordinate_grid ix) key)) /\
    (forall row raw,
       row ∈ sample_source -> Py.truthy (row_zipcode row) = Some raw ->
       is_Some (zipcode_index ix !! Py.zfill 5 raw)) /\
    (forall w path,
       fetchall w path = Ok sample_source ->
       build_fast_indices AsciiStr.externals w (Some path) =
         ([ PrintBuildingFrom path;
            Dump output_file (all_indices ix);
            PrintBuilt (size (zipcode_index ix));
            PrintSavedTo output_file ],
          Ok tt)).
Proof.
  split; [exact sample_source_finite|].
  apply (row_without_code_kept_elsewhere AsciiStr.externals sample_source).
  exact sample_source_finite.
Defined.

(** C2, as the spec words it, fails on a row without a code that has a
    city, a state and coordinates: its record enters the city/state index
    and the coordinate grid, and the run prints nothing about it. *)
Lemma row_without_code_not_skipped :
  exists ix,
    build_indices AsciiStr.externals [row_no_code] = Ok ix /\
    row_zipcode row_no_code = None /\
    zipcode_index ix = ∅ /\
    bucket_at (city_state_index ix) ("Beverly Hills", "CA") =
      [make_record AsciiStr.externals row_no_code] /\
    bucket_at (coordinate_grid ix) (341, -1183) =
      [make_record AsciiStr.externals row_no_code] /\
    build_fast_indices AsciiStr.externals (sample_world [row_no_code]) None =
      ([ PrintBuildingFrom "simple_db.sqlite";
         Dump "indices.bin" (all_indices ix);
         PrintBuilt 0;
         PrintSavedTo "indices.bin" ],
       Ok tt).
Proof.
  eexists. split; [vm_compute; reflexivity|].
  repeat split; vm_compute; reflexivity.
Qed.

(** * The codes of the zipcode index (C3) *)

(** C3, as the code has it.  Every entry of the zipcode index comes from a
    row with a non-empty raw code; its key is the record's code and is the
    raw code passed through [zfill(5)].  The key has five characters or, for
    a longer raw code, as many as the raw code.  When the raw code is made
    of at most five digits, the key is that code behind zeros, five digits
    in all. *)
Theorem stored_code_zero_padded (ext : Externals) (rows : list Row) :
  Forall (fun row => finite_coordinates row = true) rows ->
  exists ix,
    build_indices ext rows = Ok ix /\
    forall code r,
      zipcode_index ix !! code = Some r ->
      zipcode r = Some code /\
      exists row raw,
        row ∈ rows /\ r = make_record ext row /\
        row_zipcode row = Some raw /\ raw <> "" /\
        code = Py.zfill 5 raw /\
        String.length code = Nat.max 5 (String.length raw) /\
        (Py.all_digits raw = true -> (String.length raw <= 5)%nat ->
         code = Py.zeros (5 - String.length raw) +:+ raw /\
         String.length code = 5%nat /\
         Py.all_digits code = true).
Proof.
  intros Hall.
  destruct (build_indices_Ok ext rows Hall) as (ix & Hix & Hzip & _).
  exists ix. split; [exact Hix|].
  intros code r Hr. rewrite Hzip in Hr.
  apply last_Some_elem_of, list_elem_of_filter in Hr as [Hcode Hin].
  apply list_elem_of_fmap in Hin as (row & -> & Hin).
  pose proof Hcode as Hc.
  apply record_code in Hc as (raw & Hraw & ->).
  apply truthy_Some in Hraw as Hraw'. destruct Hraw' as [Hrow Hne].
  split.
  { simpl. rewrite Hraw. reflexivity. }
  exists row, raw. repeat split; try assumption.
  - apply zfill_length.
  - apply zfill_digits; assumption.
  - rewrite zfill_length. lia.
  - apply zfill_digits; assumption.
Qed.

Lemma stored_code_zero_padded_witness :
  Forall (fun row => finite_coordinates row = true) sample_source /\
  exists ix,
    build_indices AsciiStr.externals sample_source = Ok ix /\
    forall code r,
      zipcode_index ix !! code = Some r ->
      zipcode r = Some code /\
      exists row raw,
        row ∈ sample_source /\ r = make_record AsciiStr.externals row /\
        row_zipcode row = Some raw /\ raw <> "" /\
        code = Py.zfill 5 raw /\
        String.length code = Nat.max 5 (String.length raw) /\
        (Py.all_digits raw = true -> (String.length raw <= 5)%nat ->
         code = Py.zeros (5 - String.length raw) +:+ raw /\
         String.length code = 5%nat /\
         Py.all_digits code = true).
Proof.
  split; [exact sample_source_finite|].
  apply (stored_code_zero_padded AsciiStr.externals sample_source).
  exact sample_source_finite.
Defined.

(** C3, as the spec words it, fails on a raw code that is longer than five
    characters and has a character that is not a digit: it is stored as it
    is, both as key and as the record's code. *)
Lemma stored_code_not_five_digits :
  exists ix,
    build_indices AsciiStr.externals [row_long_code] = Ok ix /\
    row_zipcode row_long_code = Some "9021-0456" /\
    zipcode_index ix !! "9021-0456" = Some (make_record AsciiStr.externals row_long_code) /\
    zipcode (make_record AsciiStr.externals row_long_code) = Some "9021-0456" /\
    String.length "9021-0456" = 9%nat /\
    Py.all_digits "9021-0456" = false.
Proof.
  eexists. split; [vm_compute; reflexivity|].
  repeat split; vm_compute; reflexivity.
Qed.

(** * The order of floats *)

Lemma SFcompare_rank (f1 f2 : spec_float) :
  SFcompare f1 f2 =
  match sf_rank f1, sf_rank f2 with
  | Some a, Some b => Some (lex3 a b)
  | _, _ => None
  end.
Proof.
  destruct f1 as [[]|[]| |[] m1 e1], f2 as [[]|[]| |[] m2 e2];
    try reflexivity; unfold SFcompare, sf_rank, lex3; simpl fst; simpl snd;
    cbn [Z.compare]; f_equal.
  change (CompOpp (1 ?= 1)%positive) with Eq. cbv iota.
  rewrite Z.compare_opp, (Z.compare_antisym e1 e2).
  destruct (e1 ?= e2); reflexivity.
Qed.

Lemma float_ltb_rank (x y : float) :
  (x <? y)%float = true <->
  exists a b, rank x = Some a /\ rank y = Some b /\ lex3 a b = Lt.
Proof.
  rewrite ltb_spec. unfold SFltb, rank. rewrite SFcompare_rank.
  destruct (sf_rank (Prim2SF x)) as [a|], (sf_rank (Prim2SF y)) as [b|];
    try (split; [discriminate | intros (? & ? & ? & ? & ?); discriminate]).
  split.
  - destruct (lex3 a b) eqn:Hc; try discriminate. eauto.
  - intros (a' & b' & Ha & Hb & Hc). inversion Ha; inversion Hb; subst.
    rewrite Hc. reflexivity.
Qed.

Lemma float_eqb_rank (x y : float) :
  (x =? y)%float = true <->
  exists a b, rank x = Some a /\ rank y = Some b /\ lex3 a b = Eq.
Proof.
  rewrite FloatAxioms.eqb_spec. unfold SFeqb, rank. rewrite SFcompare_rank.
  destruct (sf_rank (Prim2SF x)) as [a|], (sf_rank (Prim2SF y)) as [b|];
    try (split; [discriminate | intros (? & ? & ? & ? & ?); discriminate]).
  split.
  - destruct (lex3 a b) eqn:Hc; try discriminate. eauto.
  - intros (a' & b' & Ha & Hb & Hc). inversion Ha; inversion Hb; subst.
    rewrite Hc. reflexivity.
Qed.

Lemma float_leb_rank (x y : float) :
  (x <=? y)%float = true -> is_Some (rank x).
Proof.
  rewrite leb_spec. unfold SFleb, rank. rewrite SFcompare_rank.
  destruct (sf_rank (Prim2SF x)) as [a|]; [eauto | discriminate].
Qed.

Lemma lex3_spec (a b : Z * Z * Z) :
  match lex3 a b with
  | Lt => a.1.1 < b.1.1 \/ (a.1.1 = b.1.1 /\ (a.1.2 < b.1.2 \/ (a.1.2 = b.1.2 /\ a.2 < b.2)))
  | Eq => a = b
  | Gt => b.1.1 < a.1.1 \/ (a.1.1 = b.1.1 /\ (b.1.2 < a.1.2 \/ (a.1.2 = b.1.2 /\ b.2 < a.2)))
  end.
Proof.
  destruct a as [[a1 a2] a3], b as [[b1 b2] b3]. unfold lex3. simpl.
  destruct (Z.compare_spec a1 b1); [|lia|lia].
  destruct (Z.compare_spec a2 b2); [|lia|lia].
  destruct (Z.compare_spec a3 b3); [congruence|lia|lia].
Qed.

Ltac lex3_facts :=
  repeat match goal with
  | H : lex3 ?a ?b = _ |- _ =>
      let F := fresh "F" in
      pose proof (lex3_spec a b) as F; rewrite H in F; clear H
  end.

Lemma lex3_lt_intro (a b : Z * Z * Z) :
  a.1.1 < b.1.1 \/ (a.1.1 = b.1.1 /\ (a.1.2 < b.1.2 \/ (a.1.2 = b.1.2 /\ a.2 < b.2))) ->
  lex3 a b = Lt.
Proof.
  intros Hlt. pose proof (lex3_spec a b) as F.
  destruct (lex3 a b); [subst; lia | reflexivity | lia].
Qed.

Lemma lex3_refl (a : Z * Z * Z) : lex3 a a = Eq.
Proof.
  pose proof (lex3_spec a a) as F. destruct (lex3 a a); [reflexivity | lia | lia].
Qed.

Lemma float_ltb_trans (x y z : float) :
  (x <? y)%float = true -> (y <? z)%float = true -> (x <? z)%float = true.
Proof.
  rewrite !float_ltb_rank.
  intros (a & b & Ha & Hb & Hab) (b' & c & Hb' & Hc & Hbc).
  assert (b' = b) by congruence. subst b'.
  exists a, c. repeat split; try assumption.
  lex3_facts. apply lex3_lt_intro. lia.
Qed.

Lemma float_ltb_eqb (x y z : float) :
  (x <? y)%float = true -> (y =? z)%float = true -> (x <? z)%float = true.
Proof.
  rewrite !float_ltb_rank, float_eqb_rank.
  intros (a & b & Ha & Hb & Hab) (b' & c & Hb' & Hc & Hbc).
  assert (b' = b) by congruence. subst b'.
  exists a, c. repeat split; try assumption.
  lex3_facts. subst. apply lex3_lt_intro. lia.
Qed.

Lemma float_eqb_ltb (x y z : float) :
  (x =? y)%float = true -> (y <? z)%float = true -> (x <? z)%float = true.
Proof.
  rewrite !float_ltb_rank, float_eqb_rank.
  intros (a & b & Ha & Hb & Hab) (b' & c & Hb' & Hc & Hbc).
  assert (b' = b) by congruence. subst b'.
  exists a, c. repeat split; try assumption.
  lex3_facts. subst. apply lex3_lt_intro. lia.
Qed.

Lemma float_eqb_trans (x y z : float) :
  (x =? y)%float = true -> (y =? z)%float = true -> (x =? z)%float = true.
Proof.
  rewrite !float_eqb_rank.
  intros (a & b & Ha & Hb & Hab) (b' & c & Hb' & Hc & Hbc).
  assert (b' = b) by congruence. subst b'.
  exists a, c. repeat split; try assumption.
  lex3_facts. subst. apply lex3_refl.
Qed.

Lemma float_eqb_sym (x y : float) :
  (x =? y)%float = true -> (y =? x)%float = true.
Proof.
  rewrite !float_eqb_rank.
  intros (a & b & Ha & Hb & Hab).
  exists b, a. repeat split; try assumption.
  lex3_facts. subst. apply lex3_refl.
Qed.

(** Two floats that are not NaN are equal or one is below the other. *)
Lemma float_total (x y : float) :
  is_Some (rank x) -> is_Some (rank y) ->
  (x =? y)%float = false -> (x <? y)%float = false -> (y <? x)%float = true.
Proof.
  intros [a Ha] [b Hb] Heq Hlt.
  apply float_ltb_rank. exists b, a. repeat split; try assumption.
  pose proof (lex3_spec a b) as F.
  destruct (lex3 a b) eqn:Hc.
  - exfalso. apply not_true_iff_false in Heq. apply Heq.
    apply float_eqb_rank. eauto.
  - exfalso. apply not_true_iff_false in Hlt. apply Hlt.
    apply float_ltb_rank. eauto.
  - apply lex3_lt_intro. lia.
Qed.

(** * The order of strings *)

Lemma ascii_compare_lt_trans (a b c : ascii) :
  Ascii.compare a b = Lt -> Ascii.compare b c = Lt -> Ascii.compare a c = Lt.
Proof.
  unfold Ascii.compare. rewrite !N.compare_lt_iff. lia.
Qed.

Lemma string_compare_lt_trans (s t u : string) :
  String.compare s t = Lt -> String.compare t u = Lt -> String.compare s u = Lt.
Proof.
  revert t u. induction s as [|a s IH]; intros [|b t] [|c u]; simpl;
    try discriminate; try reflexivity.
  destruct (Ascii.compare a b) eqn:Hab; try discriminate;
    destruct (Ascii.compare b c) eqn:Hbc; try discriminate; intros Hst Htu.
  - apply Ascii.compare_eq_iff in Hab, Hbc. subst.
    replace (Ascii.compare c c) with Eq
      by (symmetry; unfold Ascii.compare; apply N.compare_refl).
    eauto.
  - apply Ascii.compare_eq_iff in Hab. subst. rewrite Hbc. reflexivity.
  - apply Ascii.compare_eq_iff in Hbc. subst. rewrite Hab. reflexivity.
  - rewrite (ascii_compare_lt_trans a b c Hab Hbc). reflexivity.
Qed.

Lemma string_leb_cases (s t : string) :
  String.leb s t = true <-> s = t \/ String.compare s t = Lt.
Proof.
  unfold String.leb. destruct (String.compare s t) eqn:Hc.
  - apply String.compare_eq_iff in Hc. tauto.
  - tauto.
  - split; [discriminate|]. intros [->|?]; [|discriminate].
    assert (Hrefl : String.compare t t = Eq).
    { clear. induction t as [|a t IH]; simpl; [reflexivity|].
      unfold Ascii.compare. rewrite N.compare_refl. exact IH. }
    congruence.
Qed.

Lemma string_leb_trans (s t u : string) :
  String.leb s t = true -> String.leb t u = true -> String.leb s u = true.
Proof.
  rewrite !string_leb_cases. intros [->|Hst] [->|Htu]; auto.
  right. eapply string_compare_lt_trans; eassumption.
Qed.

Lemma string_ltb_leb (s t : string) :
  String.ltb s t = true -> String.leb s t = true.
Proof.
  unfold String.ltb, String.leb.
  destruct (String.compare s t); intros H; first [reflexivity | discriminate H].
Qed.

Lemma string_not_ltb (s t : string) :
  String.ltb s t = false -> String.leb t s = true.
Proof.
  unfold String.ltb, String.leb. rewrite (String.compare_antisym t s).
  destruct (String.compare s t); simpl; intros H; first [reflexivity | discriminate H].
Qed.

(** * Sorting by key *)

Lemma key_lt_le (a b : float * string) : key_lt a b = true -> key_le a b.
Proof.
  unfold key_lt, key_le. destruct (a.1 =? b.1)%float eqn:Heq; intros Hlt.
  - right. split; [reflexivity | apply string_ltb_leb; exact Hlt].
  - left. exact Hlt.
Qed.

Lemma key_not_lt_le (a b : float * string) :
  is_Some (rank a.1) -> is_Some (rank b.1) ->
  key_lt a b = false -> key_le b a.
Proof.
  unfold key_lt, key_le. intros Ha Hb.
  destruct (a.1 =? b.1)%float eqn:Heq; intros Hlt.
  - right. split; [apply float_eqb_sym; exact Heq | apply string_not_ltb; exact Hlt].
  - left. apply float_total; assumption.
Qed.

Lemma key_le_trans (a b c : float * string) :
  key_le a b -> key_le b c -> key_le a c.
Proof.
  unfold key_le. intros [Hab|[Hab Hs]] [Hbc|[Hbc Ht]].
  - left. eapply float_ltb_trans; eassumption.
  - left. eapply float_ltb_eqb; eassumption.
  - left. eapply float_eqb_ltb; eassumption.
  - right. split; [eapply float_eqb_trans | eapply string_leb_trans]; eassumption.
Qed.

Section SortFacts.

Context {A : Type} (key : A -> float * string).

Lemma insert_by_perm (x : A) (l : list A) : insert_by key x l ≡ₚ x :: l.
Proof.
  induction l as [|y l IH]; simpl; [reflexivity|].
  destruct (key_lt (key x) (key y)); [reflexivity|].
  rewrite IH. apply Permutation_swap.
Qed.

Lemma foldl_insert_perm (l acc : list A) :
  foldl (fun sorted x => insert_by key x sorted) acc l ≡ₚ acc ++ l.
Proof.
  revert acc. induction l as [|x l IH]; intros acc; simpl.
  - rewrite app_nil_r. reflexivity.
  - rewrite IH, insert_by_perm. simpl. apply Permutation_middle.
Qed.

Lemma sort_by_perm (l : list A) : sort_by key l ≡ₚ l.
Proof. unfold sort_by. rewrite foldl_insert_perm. reflexivity. Qed.

Lemma insert_by_hd (x y : A) (l : list A) :
  ordered key y x -> HdRel (ordered key) y l -> HdRel (ordered key) y (insert_by key x l).
Proof.
  intros Hyx Hhd. destruct l as [|z l]; simpl; [constructor; exact Hyx|].
  destruct (key_lt (key x) (key z)); constructor; [exact Hyx|].
  inversion Hhd; assumption.
Qed.

Lemma insert_by_sorted (x : A) (l : list A) :
  comparable key x -> Forall (comparable key) l ->
  Sorted (ordered key) l -> Sorted (ordered key) (insert_by key x l).
Proof.
  intros Hx Hall Hsorted. induction Hsorted as [|y l Hl IH Hhd]; simpl.
  - repeat constructor.
  - apply Forall_cons in Hall as [Hy Hall].
    destruct (key_lt (key x) (key y)) eqn:Hlt.
    + constructor; [constructor; assumption|].
      constructor. apply key_lt_le. exact Hlt.
    + constructor; [apply IH; exact Hall|].
      apply insert_by_hd; [|exact Hhd].
      apply key_not_lt_le; assumption.
Qed.

Lemma foldl_insert_sorted (l acc : list A) :
  Forall (comparable key) l -> Forall (comparable key) acc -> Sorted (ordered key) acc ->
  Sorted (ordered key) (foldl (fun sorted x => insert_by key x sorted) acc l).
Proof.
  revert acc. induction l as [|x l IH]; intros acc Hl Hacc Hsorted; simpl.
  - exact Hsorted.
  - apply Forall_cons in Hl as [Hx Hl]. apply IH; [exact Hl| |].
    + rewrite insert_by_perm. constructor; assumption.
    + apply insert_by_sorted; assumption.
Qed.

Lemma sort_by_sorted (l : list A) :
  Forall (comparable key) l -> StronglySorted (ordered key) (sort_by key l).
Proof.
  intros Hl. apply Sorted_StronglySorted.
  - intros x y z. apply key_le_trans.
  - apply foldl_insert_sorted; [exact Hl | constructor | constructor].
Qed.

End SortFacts.

(** * The radius query (C4) *)

(** C4.  Whatever the distance function and the scanned window, the query
    returns the candidates at distance at most the radius, each as often as
    it is a candidate, and returns them in ascending order of distance,
    equal distances in ascending order of code. *)
Theorem by_coordinates_within_sorted
    (distance_miles : float -> float -> float -> float -> float)
    (scan_window : float -> float -> float -> list (Z * Z))
    (grid : gmap (Z * Z) (list GridRecord)) (lat lng radius : float) :
  let distance r := distance_miles lat lng (rec_lat r) (rec_lng r) in
  let found := by_coordinates distance_miles scan_window grid lat lng radius in
  found ≡ₚ filter (fun r => (distance r <=? radius)%float = true)
                  (candidates scan_window grid lat lng radius) /\
  (forall r,
     r ∈ found <->
     r ∈ candidates scan_window grid lat lng radius /\
     (distance r <=? radius)%float = true) /\
  StronglySorted
    (fun a b =>
       (distance a <? distance b)%float = true \/
       ((distance a =? distance b)%float = true /\
        String.leb (rec_code a) (rec_code b) = true))
    found.
Proof.
  intros distance found.
  assert (Hperm : found ≡ₚ filter (fun r => (distance r <=? radius)%float = true)
                                  (candidates scan_window grid lat lng radius)).
  { apply sort_by_perm. }
  split; [exact Hperm|]. split.
  - intros r. rewrite Hperm, list_elem_of_filter. tauto.
  - apply (sort_by_sorted (sort_key distance_miles lat lng)).
    apply Forall_forall. intros r Hr.
    apply list_elem_of_filter in Hr as [Hle _].
    exact (float_leb_rank _ _ Hle).
Qed.

(** The query on the sample grid: the record too far away is dropped, the
    two records at the query point come first, in the order of their codes. *)
Example by_coordinates_sample :
  by_coordinates axis_distance two_buckets sample_grid 34.125 (-118.375) 0.25 =
    [ mkGridRecord "90210" 34.125 (-118.375);
      mkGridRecord "90211" 34.125 (-118.375);
      mkGridRecord "90212" 34.1875 (-118.4375);
      mkGridRecord "90077" 34.25 (-118.4375) ].
Proof. vm_compute. reflexivity. Qed.

(** * The distance formula (C5) *)

Lemma sin_half_swap (x y : R) : ((sin ((x - y) / 2))² = (sin ((y - x) / 2))²)%R.
Proof.
  replace ((y - x) / 2)%R with (- ((x - y) / 2))%R by lra.
  rewrite sin_neg. apply Rsqr_neg.
Qed.

(** C5.  The distance is a function of the four coordinates alone.  It is
    the same in both directions, it is zero from a point to itself, and it
    is the radius 3958.8 times the central angle of the Haversine formula. *)
Theorem haversine_symmetric_zero (lat1 lng1 lat2 lng2 : R) :
  _haversine_distance lat1 lng1 lat2 lng2 = _haversine_distance lat2 lng2 lat1 lng1 /\
  _haversine_distance lat1 lng1 lat1 lng1 = 0%R /\
  _haversine_distance lat1 lng1 lat2 lng2 =
    (3958.8 * (2 * asin (sqrt
       ((sin ((radians lat2 - radians lat1) / 2))² +
        cos (radians lat1) * cos (radians lat2) *
        (sin ((radians lng2 - radians lng1) / 2))²))))%R.
Proof.
  split; [|split].
  - unfold _haversine_distance. cbv zeta.
    rewrite (sin_half_swap (radians lat2) (radians lat1)).
    rewrite (sin_half_swap (radians lng2) (radians lng1)).
    rewrite (Rmult_comm (cos (radians lat1)) (cos (radians lat2))).
    reflexivity.
  - unfold _haversine_distance. cbv zeta.
    replace ((radians lat1 - radians lat1) / 2)%R with 0%R by lra.
    replace ((radians lng1 - radians lng1) / 2)%R with 0%R by lra.
    rewrite sin_0. unfold Rsqr. rewrite !Rmult_0_r, Rplus_0_r.
    rewrite sqrt_0, asin_0. lra.
  - reflexivity.
Qed.

(** * Duplicate codes (C6) *)

(** C6.  On a source whose coordinates all have buckets the build completes,
    and a code maps to the record of the last row that carries it: whatever
    rows come before, a row with a non-empty raw code that no later row pads
    to is the one found under its padded code. *)
Theorem duplicate_codes_last_wins (ext : Externals) (rows : list Row) :
  Forall (fun row => finite_coordinates row = true) rows ->
  exists ix,
    build_indices ext rows = Ok ix /\
    forall earlier row later raw,
      rows = earlier ++ row :: later ->
      Py.truthy (row_zipcode row) = Some raw ->
      (forall row' raw',
         row' ∈ later -> Py.truthy (row_zipcode row') = Some raw' ->
         Py.zfill 5 raw' <> Py.zfill 5 raw) ->
      zipcode_index ix !! Py.zfill 5 raw = Some (make_record ext row).
Proof.
  intros Hall.
  destruct (build_indices_Ok ext rows Hall) as (ix & Hix & Hzip & _).
  exists ix. split; [exact Hix|].
  intros earlier row later raw -> Hraw Hlater.
  rewrite Hzip, fmap_app, fmap_cons, filter_app, filter_cons_True.
  2: { apply record_code. exists raw. split; [exact Hraw | reflexivity]. }
  assert (Hnone : filter (fun r => Py.truthy (zipcode r) = Some (Py.zfill 5 raw))
                         (make_record ext <$> later) = []).
  { destruct (filter _ (make_record ext <$> later)) as [|r l] eqn:Hf; [reflexivity|].
    assert (Hr : r ∈ filter (fun r => Py.truthy (zipcode r) = Some (Py.zfill 5 raw))
                            (make_record ext <$> later)).
    { rewrite Hf. apply elem_of_cons. left. reflexivity. }
    apply list_elem_of_filter in Hr as [Hcode Hin].
    apply list_elem_of_fmap in Hin as (row' & -> & Hin).
    apply record_code in Hcode as (raw' & Hraw' & Heq).
    exfalso. apply (Hlater row' raw' Hin Hraw'). symmetry. exact Heq. }
  rewrite Hnone. apply last_snoc.
Qed.

Lemma duplicate_codes_last_wins_witness :
  Forall (fun row => finite_coordinates row = true) sample_source /\
  exists ix,
    build_indices AsciiStr.externals sample_source = Ok ix /\
    forall earlier row later raw,
      sample_source = earlier ++ row :: later ->
      Py.truthy (row_zipcode row) = Some raw ->
      (forall row' raw',
         row' ∈ later -> Py.truthy (row_zipcode row') = Some raw' ->
         Py.zfill 5 raw' <> Py.zfill 5 raw) ->
      zipcode_index ix !! Py.zfill 5 raw = Some (make_record AsciiStr.externals row).
Proof.
  split; [exact sample_source_finite|].
  apply (duplicate_codes_last_wins AsciiStr.externals sample_source).
  exact sample_source_finite.
Defined.

(** * The city/state index (C7) *)

(** C7.  The record of a row is in the city/state index exactly when its
    normalized major city and its normalized state are present, and then it
    is found under that pair, the city title-cased and the state uppercased
    after stripping.  The list under a key is the records of that key in
    source order; the list after a prefix of the source is a prefix of the
    list after the whole source, so appending never replaces. *)
Theorem city_state_index_appends (ext : Externals) (rows : list Row) :
  Forall (fun row => finite_coordinates row = true) rows ->
  exists ix,
    build_indices ext rows = Ok ix /\
    (forall row,
       row ∈ rows ->
       (exists key, make_record ext row ∈ bucket_at (city_state_index ix) key) <->
       (exists city st,
          Py.truthy (major_city (make_record ext row)) = Some city /\
          Py.truthy (state (make_record ext row)) = Some st)) /\
    (forall row city st,
       row ∈ rows ->
       Py.truthy (major_city (make_record ext row)) = Some city ->
       Py.truthy (state (make_record ext row)) = Some st ->
       make_record ext row ∈ bucket_at (city_state_index ix) (city, st)) /\
    (forall row,
       major_city (make_record ext row) =
         (fun s => str_title ext (str_strip ext s)) <$> Py.truthy (row_major_city row) /\
       state (make_record ext row) =
         (fun s => str_upper ext (str_strip ext s)) <$> Py.truthy (row_state row)) /\
    (forall key,
       bucket_at (city_state_index ix) key =
       filter (fun r => city_state_key r = Some key) (make_record ext <$> rows)) /\
    (forall key,
       is_Some (city_state_index ix !! key) <-> bucket_at (city_state_index ix) key <> []) /\
    (forall rows1 rows2,
       rows = rows1 ++ rows2 ->
       exists ix1,
         build_indices ext rows1 = Ok ix1 /\
         forall key,
           bucket_at (city_state_index ix1) key `prefix_of`
           bucket_at (city_state_index ix) key).
Proof.
  intros Hall.
  destruct (build_indices_Ok ext rows Hall) as (ix & Hix & _ & Hcity & _ & Hdom & _).
  exists ix. split; [exact Hix|]. repeat split.
  - intros ([city st] & Hin). rewrite Hcity in Hin.
    apply list_elem_of_filter in Hin as [Hkey _].
    apply city_state_key_Some in Hkey. exists city, st. exact Hkey.
  - intros (city & st & Hc & Hs). exists (city, st).
    rewrite Hcity. apply list_elem_of_filter. split.
    + apply city_state_key_Some. split; assumption.
    + apply list_elem_of_fmap_2. assumption.
  - intros row city st Hin Hc Hs. rewrite Hcity.
    apply list_elem_of_filter. split.
    + apply city_state_key_Some. split; assumption.
    + apply list_elem_of_fmap_2. assumption.
  - exact Hcity.
  - intros Hsome. apply Hdom in Hsome as (r & Hin & Hkey).
    rewrite Hcity. intros Hnil.
    apply (filter_nil_not_elem_of _ _ r Hnil Hkey Hin).
  - intros Hne. apply Hdom. rewrite Hcity in Hne.
    destruct (filter _ (make_record ext <$> rows)) as [|r l] eqn:Hf; [congruence|].
    assert (Hr : r ∈ filter (fun r => city_state_key r = Some key) (make_record ext <$> rows)).
    { rewrite Hf. apply elem_of_cons. left. reflexivity. }
    apply list_elem_of_filter in Hr as [Hkey Hin]. exists r. split; assumption.
  - intros rows1 rows2 ->.
    apply Forall_app in Hall as Hall'. destruct Hall' as [Hall1 _].
    destruct (build_indices_Ok ext rows1 Hall1) as (ix1 & Hix1 & _ & Hcity1 & _).
    exists ix1. split; [exact Hix1|].
    intros key. rewrite Hcity, Hcity1, fmap_app, filter_app.
    apply prefix_app_r. reflexivity.
Qed.

Lemma city_state_index_appends_witness :
  Forall (fun row => finite_coordinates row = true) sample_source /\
  exists ix,
    build_indices AsciiStr.externals sample_source = Ok ix /\
    (forall row,
       row ∈ sample_source ->
       (exists key,
          make_record AsciiStr.externals row ∈ bucket_at (city_state_index ix) key) <->
       (exists city st,
          Py.truthy (major_city (make_record AsciiStr.externals row)) = Some city /\
          Py.truthy (state (make_record AsciiStr.externals row)) = Some st)) /\
    (forall row city st,
       row ∈ sample_source ->
       Py.truthy (major_city (make_record AsciiStr.externals row)) = Some city ->
       Py.truthy (state (make_record AsciiStr.externals row)) = Some st ->
       make_record AsciiStr.externals row ∈ bucket_at (city_state_index ix) (city, st)) /\
    (forall row,
       major_city (make_record AsciiStr.externals row) =
         (fun s => AsciiStr.title (AsciiStr.strip s)) <$> Py.truthy (row_major_city row) /\
       state (make_record AsciiStr.externals row) =
         (fun s => AsciiStr.upper (AsciiStr.strip s)) <$> Py.truthy (row_state row)) /\
    (forall key,
       bucket_at (city_state_index ix) key =
       filter (fun r => city_state_key r = Some key)
              (make_record AsciiStr.externals <$> sample_source)) /\
    (forall key,
       is_Some (city_state_index ix !! key) <-> bucket_at (city_state_index ix) key <> []) /\
    (forall rows1 rows2,
       sample_source = rows1 ++ rows2 ->
       exists ix1,
         build_indices AsciiStr.externals rows1 = Ok ix1 /\
         forall key,
           bucket_at (city_state_index ix1) key `prefix_of`
           bucket_at (city_state_index ix) key).
Proof.
  split; [exact sample_source_finite|].
  apply (city_state_index_appends AsciiStr.externals sample_source).
  exact sample_source_finite.
Defined.

(** * Two runs over the same rows (C8) *)

Lemma all_indices_inj (ix1 ix2 : Indices) :
  all_indices ix1 = all_indices ix2 -> ix1 = ix2.
Proof.
  destruct ix1, ix2. unfold all_indices. simpl.
  intros Heq. inversion Heq. reflexivity.
Qed.

(** What a run that got its rows leaves behind. *)
Lemma build_fast_indices_fetched (ext : Externals) (w : World)
    (sqlite_path : option string) (path : string) (rows : list Row) :
  find_database w sqlite_path = Ok path ->
  fetchall w path = Ok rows ->
  build_fast_indices ext w sqlite_path =
    match build_indices ext rows with
    | Ok ix =>
        ([ PrintBuildingFrom path;
           Dump output_file (all_indices ix);
           PrintBuilt (size (zipcode_index ix));
           PrintSavedTo output_file ],
         Ok tt)
    | Raise e => ([PrintBuildingFrom path], Raise e)
    end.
Proof.
  intros Hfind Hfetch. unfold build_fast_indices.
  rewrite Hfind, Hfetch. destruct (build_indices ext rows); reflexivity.
Qed.

(** C8.  Two runs that read the same sequence of rows, from whatever path
    each found its database at, end the same way and write the same
    container to the same file: the same key sets in the three indices and
    the same value, hence the same list in the same order, at every key. *)
Theorem build_deterministic (ext : Externals) (w1 w2 : World)
    (sqlite_path1 sqlite_path2 : option string) (path1 path2 : string)
    (rows : list Row) :
  find_database w1 sqlite_path1 = Ok path1 -> fetchall w1 path1 = Ok rows ->
  find_database w2 sqlite_path2 = Ok path2 -> fetchall w2 path2 = Ok rows ->
  let run1 := build_fast_indices ext w1 sqlite_path1 in
  let run2 := build_fast_indices ext w2 sqlite_path2 in
  snd run1 = snd run2 /\
  List.filter is_dump (fst run1) = List.filter is_dump (fst run2) /\
  forall file1 file2 ix1 ix2,
    Dump file1 (all_indices ix1) ∈ fst run1 ->
    Dump file2 (all_indices ix2) ∈ fst run2 ->
    file1 = file2 /\
    dom (zipcode_index ix1) = dom (zipcode_index ix2) /\
    dom (city_state_index ix1) = dom (city_state_index ix2) /\
    dom (coordinate_grid ix1) = dom (coordinate_grid ix2) /\
    (forall code, zipcode_index ix1 !! code = zipcode_index ix2 !! code) /\
    (forall key, city_state_index ix1 !! key = city_state_index ix2 !! key) /\
    (forall key, coordinate_grid ix1 !! key = coordinate_grid ix2 !! key).
Proof.
  intros Hfind1 Hfetch1 Hfind2 Hfetch2 run1 run2. subst run1 run2.
  rewrite (build_fast_indices_fetched ext w1 _ _ _ Hfind1 Hfetch1).
  rewrite (build_fast_indices_fetched ext w2 _ _ _ Hfind2 Hfetch2).
  destruct (build_indices ext rows) as [ix|e]; simpl.
  - split; [reflexivity|]. split; [reflexivity|].
    intros file1 file2 ix1 ix2 Hin1 Hin2.
    assert (Hone : forall file ix',
              Dump file (all_indices ix') ∈
                [ PrintBuildingFrom path1; Dump output_file (all_indices ix);
                  PrintBuilt (size (zipcode_index ix)); PrintSavedTo output_file ] \/
              Dump file (all_indices ix') ∈
                [ PrintBuildingFrom path2; Dump output_file (all_indices ix);
                  PrintBuilt (size (zipcode_index ix)); PrintSavedTo output_file ] ->
              file = output_file /\ ix' = ix).
    { intros file ix' [Hin|Hin];
        repeat (apply elem_of_cons in Hin as [Hin|Hin]; [try discriminate Hin|]);
        try (apply elem_of_nil in Hin; contradiction);
        (assert (Hfile : file = output_file) by congruence);
        (assert (Hix : all_indices ix' = all_indices ix) by congruence);
        apply all_indices_inj in Hix; split; assumption. }
    destruct (Hone file1 ix1 (or_introl Hin1)) as [-> ->].
    destruct (Hone file2 ix2 (or_intror Hin2)) as [-> ->].
    repeat split; reflexivity.
  - split; [reflexivity|]. split; [reflexivity|].
    intros file1 file2 ix1 ix2 Hin1 _.
    apply list_elem_of_singleton in Hin1. discriminate Hin1.
Qed.

Lemma build_deterministic_witness :
  let w2 := {| home := "/root";
               disk := fun path => if String.eqb path "/data/zip.sqlite"
                                   then Table sample_source else NoFile |} in
  let run1 := build_fast_indices AsciiStr.externals (sample_world sample_source) None in
  let run2 := build_fast_indices AsciiStr.externals w2 (Some "/data/zip.sqlite") in
  (find_database (sample_world sample_source) None = Ok "simple_db.sqlite" /\
   fetchall (sample_world sample_source) "simple_db.sqlite" = Ok sample_source /\
   find_database w2 (Some "/data/zip.sqlite") = Ok "/data/zip.sqlite" /\
   fetchall w2 "/data/zip.sqlite" = Ok sample_source) /\
  (snd run1 = snd run2 /\
   List.filter is_dump (fst run1) = List.filter is_dump (fst run2) /\
   forall file1 file2 ix1 ix2,
     Dump file1 (all_indices ix1) ∈ fst run1 ->
     Dump file2 (all_indices ix2) ∈ fst run2 ->
     file1 = file2 /\
     dom (zipcode_index ix1) = dom (zipcode_index ix2) /\
     dom (city_state_index ix1) = dom (city_state_index ix2) /\
     dom (coordinate_grid ix1) = dom (coordinate_grid ix2) /\
     (forall code, zipcode_index ix1 !! code = zipcode_index ix2 !! code) /\
     (forall key, city_state_index ix1 !! key = city_state_index ix2 !! key) /\
     (forall key, coordinate_grid ix1 !! key = coordinate_grid ix2 !! key)).
Proof.
  intros w2 run1 run2.
  split; [repeat split; reflexivity|].
  apply (build_deterministic AsciiStr.externals (sample_world sample_source) w2
           None (Some "/data/zip.sqlite") "simple_db.sqlite" "/data/zip.sqlite"
           sample_source); reflexivity.
Defined.

(** * Failure to read the source, and the write (C9) *)

(** C9.  A run whose source is absent or unreadable ends in an exception,
    the one of the search or of the query, and writes nothing.  No run that
    ends in an exception writes anything.  A run that ends well writes once,
    to [indices.bin], and what it writes is the dictionary of the three
    sections [zipcode_index], [city_state_index] and [coordinate_grid], in
    that order, holding the three indices of the loop. *)
Theorem source_failure_writes_nothing (ext : Externals) (w : World)
    (sqlite_path : option string) :
  let run := build_fast_indices ext w sqlite_path in
  (~ source_readable w sqlite_path ->
   exists e,
     snd run = Raise e /\
     (e = FileNotFoundError \/ e = OperationalError \/ e = DatabaseError) /\
     List.filter is_dump (fst run) = []) /\
  (forall e, snd run = Raise e -> List.filter is_dump (fst run) = []) /\
  (snd run = Ok tt ->
   exists path rows ix,
     find_database w sqlite_path = Ok path /\
     fetchall w path = Ok rows /\
     build_indices ext rows = Ok ix /\
     List.filter is_dump (fst run) = [Dump "indices.bin" (all_indices ix)] /\
     all_indices ix =
       [ ("zipcode_index", ZipcodeIndex (zipcode_index ix));
         ("city_state_index", CityStateIndex (city_state_index ix));
         ("coordinate_grid", CoordinateGrid (coordinate_grid ix)) ]).
Proof.
  intros run. subst run. unfold build_fast_indices, source_readable.
  destruct (find_database w sqlite_path) as [path|e0] eqn:Hfind; simpl.
  - unfold fetchall.
    destruct (disk w path) as [| |rows] eqn:Hdisk; simpl.
    + repeat split; try discriminate; try reflexivity.
      intros _. exists OperationalError. repeat split; auto.
    + repeat split; try discriminate; try reflexivity.
      intros _. exists DatabaseError. repeat split; auto.
    + destruct (build_indices ext rows) as [ix|e1] eqn:Hbuild; simpl.
      * repeat split; try discriminate.
        -- intros Hno. exfalso. apply Hno. exists path, rows. split; [reflexivity | exact Hdisk].
        -- intros _. exists path, rows, ix.
           split; [reflexivity|]. split; [rewrite Hdisk; reflexivity|].
           split; [exact Hbuild|]. split; reflexivity.
      * repeat split; try discriminate; try reflexivity.
        intros Hno. exfalso. apply Hno. exists path, rows. split; [reflexivity | exact Hdisk].
  - assert (He0 : e0 = FileNotFoundError).
    { unfold find_database in Hfind. destruct sqlite_path; [discriminate|].
      destruct (List.find _ _); [discriminate|]. inversion Hfind. reflexivity. }
    repeat split; try discriminate; try reflexivity.
    intros _. exists e0. repeat split; auto.
Qed.

(** The four ways a run can go, on concrete worlds. *)
Example run_without_database :
  build_fast_indices AsciiStr.externals empty_world None = ([], Raise FileNotFoundError).
Proof. vm_compute. reflexivity. Qed.

Example run_on_missing_path :
  build_fast_indices AsciiStr.externals empty_world (Some "zip.sqlite") =
    ([PrintBuildingFrom "zip.sqlite"], Raise OperationalError).
Proof. vm_compute. reflexivity. Qed.

Example run_on_unreadable_database :
  build_fast_indices AsciiStr.externals broken_world None =
    ([PrintBuildingFrom "simple_db.sqlite"], Raise DatabaseError).
Proof. vm_compute. reflexivity. Qed.

Example run_on_sample_source :
  exists ix,
    build_indices AsciiStr.externals sample_source = Ok ix /\
    build_fast_indices AsciiStr.externals (sample_world sample_source) None =
      ([ PrintBuildingFrom "simple_db.sqlite";
         Dump "indices.bin" (all_indices ix);
         PrintBuilt 3;
         PrintSavedTo "indices.bin" ],
       Ok tt).
Proof. eexists. split; vm_compute; reflexivity. Qed.

(** * Records that outlive their entry in the zipcode index (C10) *)

(** C10.  When a later row carries the code of an earlier one, the record of
    the earlier row stays in the city/state index, under its city and state
    when both are present, and in the coordinate grid, under its bucket when
    both coordinates are present.  If no later row builds the very same
    record, the earlier record is no value of the zipcode index any more. *)
Theorem overwritten_record_stays (ext : Externals) (rows : list Row) :
  Forall (fun row => finite_coordinates row = true) rows ->
  exists ix,
    build_indices ext rows = Ok ix /\
    forall before row between row' after raw raw',
      rows = before ++ row :: between ++ row' :: after ->
      Py.truthy (row_zipcode row) = Some raw ->
      Py.truthy (row_zipcode row') = Some raw' ->
      Py.zfill 5 raw = Py.zfill 5 raw' ->
      (forall city st,
         Py.truthy (major_city (make_record ext row)) = Some city ->
         Py.truthy (state (make_record ext row)) = Some st ->
         make_record ext row ∈ bucket_at (city_state_index ix) (city, st)) /\
      (forall la lo,
         row_lat row = Some la -> row_lng row = Some lo ->
         exists key,
           bucket_of (make_record ext row) = Some key /\
           make_record ext row ∈ bucket_at (coordinate_grid ix) key) /\
      ((forall r, r ∈ between ++ row' :: after -> make_record ext r <> make_record ext row) ->
       forall code, zipcode_index ix !! code <> Some (make_record ext row)).
Proof.
  intros Hall.
  destruct (build_indices_Ok ext rows Hall) as (ix & Hix & Hzip & Hcity & Hgrid & _).
  exists ix. split; [exact Hix|].
  intros before row between row' after raw raw' Hrows Hraw Hraw' Hsame.
  assert (Hin : row ∈ rows).
  { rewrite Hrows. apply elem_of_app. right. apply elem_of_cons. left. reflexivity. }
  repeat split.
  - intros city st Hc Hs. rewrite Hcity. apply list_elem_of_filter. split.
    + apply city_state_key_Some. split; assumption.
    + apply list_elem_of_fmap_2. exact Hin.
  - intros la lo Hla Hlo.
    pose proof (proj1 (Forall_forall _ _) Hall row Hin) as Hfin.
    destruct (bucket_of_present ext row la lo Hfin Hla Hlo) as [key Hkey].
    exists key. split; [exact Hkey|].
    rewrite Hgrid. apply list_elem_of_filter. split; [exact Hkey|].
    apply list_elem_of_fmap_2. exact Hin.
  - intros Hdiff code Hlook.
    assert (Hcode : Py.truthy (zipcode (make_record ext row)) = Some code).
    { rewrite Hzip in Hlook.
      apply last_Some_elem_of, list_elem_of_filter in Hlook. tauto. }
    apply record_code in Hcode as (raw0 & Hraw0 & ->).
    assert (raw0 = raw) by congruence. subst raw0.
    rewrite Hzip, Hrows in Hlook.
    replace (before ++ row :: between ++ row' :: after)
      with ((before ++ row :: between) ++ row' :: after) in Hlook
      by (rewrite <- app_assoc; reflexivity).
    rewrite fmap_app, fmap_cons in Hlook.
    destruct (last_filter_from
                (fun r => Py.truthy (zipcode r) = Some (Py.zfill 5 raw))
                (make_record ext <$> (before ++ row :: between))
                (make_record ext <$> after) (make_record ext row'))
      as (y & Hlast & Hy).
    { apply record_code. exists raw'. split; [exact Hraw' | exact Hsame]. }
    rewrite Hlast in Hlook. inversion Hlook; subst y.
    rewrite <- fmap_cons in Hy.
    apply list_elem_of_fmap in Hy as (r & Heq & Hr).
    apply (Hdiff r); [|symmetry; exact Heq].
    apply elem_of_app. right. exact Hr.
Qed.

Lemma overwritten_record_stays_witness :
  Forall (fun row => finite_coordinates row = true) sample_source /\
  exists ix,
    build_indices AsciiStr.externals sample_source = Ok ix /\
    forall before row between row' after raw raw',
      sample_source = before ++ row :: between ++ row' :: after ->
      Py.truthy (row_zipcode row) = Some raw ->
      Py.truthy (row_zipcode row') = Some raw' ->
      Py.zfill 5 raw = Py.zfill 5 raw' ->
      (forall city st,
         Py.truthy (major_city (make_record AsciiStr.externals row)) = Some city ->
         Py.truthy (state (make_record AsciiStr.externals row)) = Some st ->
         make_record AsciiStr.externals row ∈ bucket_at (city_state_index ix) (city, st)) /\
      (forall la lo,
         row_lat row = Some la -> row_lng row = Some lo ->
         exists key,
           bucket_of (make_record AsciiStr.externals row) = Some key /\
           make_record AsciiStr.externals row ∈ bucket_at (coordinate_grid ix) key) /\
      ((forall r, r ∈ between ++ row' :: after ->
                  make_record AsciiStr.externals r <> make_record AsciiStr.externals row) ->
       forall code, zipcode_index ix !! code <> Some (make_record AsciiStr.externals row)).
Proof.
  split; [exact sample_source_finite|].
  apply (overwritten_record_stays AsciiStr.externals sample_source).
  exact sample_source_finite.
Defined.

(** In the sample source the first row is overwritten by the fourth: its
    record is gone from the zipcode index and still in the other two. *)
Example overwritten_record_sample :
  exists ix,
    build_indices AsciiStr.externals sample_source = Ok ix /\
    zipcode_index ix !! "90210" = Some (make_record AsciiStr.externals row_beverly_again) /\
    bucket_at (city_state_index ix) ("Beverly Hills", "CA") =
      [make_record AsciiStr.externals row_beverly;
       make_record AsciiStr.externals row_no_code] /\
    bucket_at (coordinate_grid ix) (341, -1183) =
      [make_record AsciiStr.externals row_beverly;
       make_record AsciiStr.externals row_no_code].
Proof.
  eexists. split; [vm_compute; reflexivity|].
  repeat split; vm_compute; reflexivity.
Qed.

(** * Further properties of the builder and of the benchmark *)

(** * What the grid holds *)

Lemma bucket_of_Some (r : FastZipcode) (key : Z * Z) :
  bucket_of r = Some key <->
  exists la lo,
    lat r = Some la /\ lng r = Some lo /\
    Py.int_of_float (la * 10) = Ok key.1 /\
    Py.int_of_float (lo * 10) = Ok key.2.
Proof.
  unfold bucket_of, grid_key. destruct key as [a b]. simpl.
  destruct (lat r) as [la|], (lng r) as [lo|];
    try (split; [discriminate | intros (? & ? & ? & ? & _); discriminate]).
  destruct (Py.int_of_float (la * 10)) as [a'|e1] eqn:Ha; simpl.
  - destruct (Py.int_of_float (lo * 10)) as [b'|e2] eqn:Hb; simpl.
    + split.
      * intros Heq. inversion Heq; subst. exists la, lo. rewrite Ha, Hb. auto.
      * intros (la' & lo' & Hla & Hlo & Ha' & Hb').
        inversion Hla; inversion Hlo; subst. congruence.
    + split; [discriminate|].
      intros (la' & lo' & Hla & Hlo & Ha' & Hb').
      inversion Hla; inversion Hlo; subst. congruence.
  - split; [discriminate|].
    intros (la' & lo' & Hla & Hlo & Ha' & Hb').
    inversion Hla; inversion Hlo; subst. congruence.
Qed.

(** X1.  In the built grid every record of a bucket has both coordinates
    and the bucket is the one of its coordinates; the record of a row that
    lacks a coordinate is in no bucket; and no key of the grid holds an
    empty list. *)
Theorem grid_records_located (ext : Externals) (rows : list Row) :
  Forall (fun row => finite_coordinates row = true) rows ->
  exists ix,
    build_indices ext rows = Ok ix /\
    (forall key r,
       r ∈ bucket_at (coordinate_grid ix) key ->
       exists la lo,
         lat r = Some la /\ lng r = Some lo /\
         Py.int_of_float (la * 10) = Ok key.1 /\
         Py.int_of_float (lo * 10) = Ok key.2) /\
    (forall row key,
       row ∈ rows -> row_lat row = None \/ row_lng row = None ->
       make_record ext row ∉ bucket_at (coordinate_grid ix) key) /\
    (forall key,
       is_Some (coordinate_grid ix !! key) <-> bucket_at (coordinate_grid ix) key <> []).
Proof.
  intros Hall.
  destruct (build_indices_Ok ext rows Hall) as (ix & Hix & _ & _ & Hgrid & _ & Hdom).
  exists ix. split; [exact Hix|].
  assert (Hloc : forall key r,
            r ∈ bucket_at (coordinate_grid ix) key ->
            exists la lo,
              lat r = Some la /\ lng r = Some lo /\
              Py.int_of_float (la * 10) = Ok key.1 /\
              Py.int_of_float (lo * 10) = Ok key.2).
  { intros key r Hr. rewrite Hgrid in Hr.
    apply list_elem_of_filter in Hr as [Hkey _].
    apply bucket_of_Some. exact Hkey. }
  split; [exact Hloc|]. split.
  - intros row key Hin Hmiss Hr.
    destruct (Hloc key _ Hr) as (la & lo & Hla & Hlo & _).
    simpl in Hla, Hlo. destruct Hmiss; congruence.
  - intros key. split.
    + intros Hsome. apply Hdom in Hsome as (r & Hin & Hkey).
      rewrite Hgrid. intros Hnil.
      apply (filter_nil_not_elem_of _ _ r Hnil Hkey Hin).
    + intros Hne. apply Hdom. rewrite Hgrid in Hne.
      destruct (filter _ (make_record ext <$> rows)) as [|r l] eqn:Hf; [congruence|].
      assert (Hr : r ∈ filter (fun r => bucket_of r = Some key) (make_record ext <$> rows)).
      { rewrite Hf. apply elem_of_cons. left. reflexivity. }
      apply list_elem_of_filter in Hr as [Hkey Hin]. exists r. split; assumption.
Qed.

Lemma grid_records_located_witness :
  Forall (fun row => finite_coordinates row = true) sample_source /\
  exists ix,
    build_indices AsciiStr.externals sample_source = Ok ix /\
    (forall key r,
       r ∈ bucket_at (coordinate_grid ix) key ->
       exists la lo,
         lat r = Some la /\ lng r = Some lo /\
         Py.int_of_float (la * 10) = Ok key.1 /\
         Py.int_of_float (lo * 10) = Ok key.2) /\
    (forall row key,
       row ∈ sample_source -> row_lat row = None \/ row_lng row = None ->
       make_record AsciiStr.externals row ∉ bucket_at (coordinate_grid ix) key) /\
    (forall key,
       is_Some (coordinate_grid ix !! key) <-> bucket_at (coordinate_grid ix) key <> []).
Proof.
  split; [exact sample_source_finite|].
  apply (grid_records_located AsciiStr.externals sample_source).
  exact sample_source_finite.
Defined.

(** * The zipcode index against the other two *)

(** X2.  Whatever can be reached through the zipcode index can be reached
    through the other indices: a record stored under a code is in the
    city/state index under its city and state when it has both, and in the
    coordinate grid under its bucket when it has both coordinates. *)
Theorem indexed_record_everywhere (ext : Externals) (rows : list Row) :
  Forall (fun row => finite_coordinates row = true) rows ->
  exists ix,
    build_indices ext rows = Ok ix /\
    forall code r,
      zipcode_index ix !! code = Some r ->
      (forall city st,
         Py.truthy (major_city r) = Some city -> Py.truthy (state r) = Some st ->
         r ∈ bucket_at (city_state_index ix) (city, st)) /\
      (forall la lo,
         lat r = Some la -> lng r = Some lo ->
         exists a b,
           Py.int_of_float (la * 10) = Ok a /\ Py.int_of_float (lo * 10) = Ok b /\
           r ∈ bucket_at (coordinate_grid ix) (a, b)).
Proof.
  intros Hall.
  destruct (build_indices_Ok ext rows Hall) as (ix & Hix & Hzip & Hcity & Hgrid & _).
  exists ix. split; [exact Hix|].
  intros code r Hr. rewrite Hzip in Hr.
  apply last_Some_elem_of, list_elem_of_filter in Hr as [_ Hin].
  split.
  - intros city st Hc Hs. rewrite Hcity. apply list_elem_of_filter.
    split; [|exact Hin]. apply city_state_key_Some. split; assumption.
  - intros la lo Hla Hlo.
    apply list_elem_of_fmap in Hin as Hrow. destruct Hrow as (row & -> & Hrow).
    pose proof (proj1 (Forall_forall _ _) Hall row Hrow) as Hfin.
    simpl in Hla, Hlo.
    destruct (bucket_of_present ext row la lo Hfin Hla Hlo) as [[a b] Hkey].
    pose proof (proj1 (bucket_of_Some _ _) Hkey) as (la' & lo' & Hla' & Hlo' & Ha & Hb).
    simpl in Hla', Hlo', Ha, Hb.
    assert (la' = la) by congruence. assert (lo' = lo) by congruence. subst.
    exists a, b. repeat split; try assumption.
    rewrite Hgrid. apply list_elem_of_filter. split; assumption.
Qed.

Lemma indexed_record_everywhere_witness :
  Forall (fun row => finite_coordinates row = true) sample_source /\
  exists ix,
    build_indices AsciiStr.externals sample_source = Ok ix /\
    forall code r,
      zipcode_index ix !! code = Some r ->
      (forall city st,
         Py.truthy (major_city r) = Some city -> Py.truthy (state r) = Some st ->
         r ∈ bucket_at (city_state_index ix) (city, st)) /\
      (forall la lo,
         lat r = Some la -> lng r = Some lo ->
         exists a b,
           Py.int_of_float (la * 10) = Ok a /\ Py.int_of_float (lo * 10) = Ok b /\
           r ∈ bucket_at (coordinate_grid ix) (a, b)).
Proof.
  split; [exact sample_source_finite|].
  apply (indexed_record_everywhere AsciiStr.externals sample_source).
  exact sample_source_finite.
Defined.

(** * The keys of the zipcode index *)

Lemma padded_codes_elem (ext : Externals) (rows : list Row) (code : string) :
  code ∈ padded_codes rows <->
  exists r, r ∈ make_record ext <$> rows /\ Py.truthy (zipcode r) = Some code.
Proof.
  unfold padded_codes. rewrite list_elem_of_omap. split.
  - intros (row & Hin & Hcode). exists (make_record ext row).
    split; [apply list_elem_of_fmap_2; exact Hin|].
    apply record_code. destruct (Py.truthy (row_zipcode row)) as [raw|]; [|discriminate].
    inversion Hcode. eauto.
  - intros (r & Hin & Hcode).
    apply list_elem_of_fmap in Hin as (row & -> & Hin).
    apply record_code in Hcode as (raw & Hraw & ->).
    exists row. split; [exact Hin|]. rewrite Hraw. reflexivity.
Qed.

Lemma size_list_to_set_le (l : list string) :
  (size (list_to_set l : gset string) <= length l)%nat.
Proof.
  induction l as [|x l IH].
  - rewrite list_to_set_nil, size_empty. simpl. lia.
  - rewrite list_to_set_cons, size_union_alt, size_singleton. simpl.
    assert (Hsub : (size ((list_to_set l : gset string) ∖ {[x]}) <=
                    size (list_to_set l : gset string))%nat).
    { apply subseteq_size, subseteq_difference_l. reflexivity. }
    lia.
Qed.

Lemma length_omap_le {A B : Type} (f : A -> option B) (l : list A) :
  (length (omap f l) <= length l)%nat.
Proof.
  induction l as [|x l IH]; cbn; [lia|].
  destruct (f x); cbn; lia.
Qed.

(** X3.  The keys of the zipcode index are exactly the padded codes of the
    rows that have a code.  So the index has at most as many entries as
    there are such rows, exactly as many when their padded codes are pairwise
    different, and the closing line of a run reports the number of different
    padded codes. *)
Theorem zipcode_index_keys (ext : Externals) (rows : list Row) :
  Forall (fun row => finite_coordinates row = true) rows ->
  exists ix,
    build_indices ext rows = Ok ix /\
    dom (zipcode_index ix) = list_to_set (padded_codes rows) /\
    (size (zipcode_index ix) <= length (padded_codes rows))%nat /\
    (length (padded_codes rows) <= length rows)%nat /\
    (NoDup (padded_codes rows) ->
     size (zipcode_index ix) = length (padded_codes rows)) /\
    (forall w path,
       fetchall w path = Ok rows ->
       PrintBuilt (size (list_to_set (padded_codes rows) : gset string))
         ∈ fst (build_fast_indices ext w (Some path))).
Proof.
  intros Hall.
  destruct (build_indices_Ok ext rows Hall) as (ix & Hix & Hzip & _).
  exists ix. split; [exact Hix|].
  assert (Hdom : dom (zipcode_index ix) = list_to_set (padded_codes rows)).
  { apply set_eq. intros code.
    rewrite elem_of_dom, Hzip, elem_of_list_to_set, (padded_codes_elem ext).
    split.
    - intros [r Hr]. exists r.
      apply last_Some_elem_of, list_elem_of_filter in Hr. tauto.
    - intros (r & Hin & Hcode).
      destruct (last _) as [r'|] eqn:Hlast; [eauto|].
      apply last_None in Hlast. exfalso.
      apply (filter_nil_not_elem_of _ _ r Hlast Hcode Hin). }
  assert (Hsize : size (zipcode_index ix) =
                  size (list_to_set (padded_codes rows) : gset string)).
  { rewrite <- Hdom. symmetry. apply size_dom. }
  split; [exact Hdom|]. split; [|split; [|split]].
  - rewrite Hsize. apply size_list_to_set_le.
  - apply length_omap_le.
  - intros Hnd. rewrite Hsize. apply size_list_to_set. exact Hnd.
  - intros w path Hfetch.
    rewrite (build_fast_indices_Ok ext w path rows ix Hfetch Hix). simpl.
    rewrite Hsize. do 2 (apply elem_of_cons; right).
    apply elem_of_cons. left. reflexivity.
Qed.

Lemma zipcode_index_keys_witness :
  Forall (fun row => finite_coordinates row = true) sample_source /\
  exists ix,
    build_indices AsciiStr.externals sample_source = Ok ix /\
    dom (zipcode_index ix) = list_to_set (padded_codes sample_source) /\
    (size (zipcode_index ix) <= length (padded_codes sample_source))%nat /\
    (length (padded_codes sample_source) <= length sample_source)%nat /\
    (NoDup (padded_codes sample_source) ->
     size (zipcode_index ix) = length (padded_codes sample_source)) /\
    (forall w path,
       fetchall w path = Ok sample_source ->
       PrintBuilt (size (list_to_set (padded_codes sample_source) : gset string))
         ∈ fst (build_fast_indices AsciiStr.externals w (Some path))).
Proof.
  split; [exact sample_source_finite|].
  apply (zipcode_index_keys AsciiStr.externals sample_source).
  exact sample_source_finite.
Defined.

(** * Counting the records of an index *)

Section CountFacts.

Context {K : Type} `{Countable K} {V : Type}.
Implicit Types (d : gmap K (list V)) (keyf : V -> option K).

Lemma total_records_dict_append d (key : K) (v : V) :
  total_records (dict_append key v d) = S (total_records d).
Proof.
  unfold total_records, dict_append.
  destruct (d !! key) as [l|] eqn:Hl; simpl.
  - rewrite <- insert_delete_eq.
    rewrite map_fold_insert_L; [|intros; lia|apply lookup_delete_eq].
    rewrite (map_fold_delete_L _ _ key l d); [|intros; lia|exact Hl].
    rewrite length_app. simpl. lia.
  - rewrite map_fold_insert_L; [|intros; lia|exact Hl]. reflexivity.
Qed.

Lemma total_records_foldl keyf d (vs : list V) :
  total_records (foldl (append_at keyf) d vs) =
  (total_records d + length (filter (fun v => is_Some (keyf v)) vs))%nat.
Proof.
  induction vs as [|v vs IH] using rev_ind; simpl; [lia|].
  rewrite foldl_snoc, filter_app, length_app, filter_cons, filter_nil.
  unfold append_at at 1. destruct (keyf v) as [key|] eqn:Hkey.
  - rewrite total_records_dict_append, IH.
    rewrite decide_True by eauto. simpl. lia.
  - rewrite IH. rewrite decide_False by (intros [? ?]; discriminate). simpl. lia.
Qed.

End CountFacts.

Lemma length_filter_fmap {A B : Type} (f : A -> B) (P : B -> Prop)
    `{forall y, Decision (P y)} (l : list A) :
  length (filter P (f <$> l)) = length (filter (fun x => P (f x)) l).
Proof.
  induction l as [|x l IH]; [reflexivity|].
  rewrite fmap_cons, !filter_cons. destruct (decide (P (f x))); simpl; lia.
Qed.

(** X4.  No record is lost or doubled on the way into the two indices of
    lists: the city/state index holds, all keys together, as many records
    as there are rows with city and state present, and the coordinate grid
    as many as there are rows with both coordinates. *)
Theorem index_record_counts (ext : Externals) (rows : list Row) :
  Forall (fun row => finite_coordinates row = true) rows ->
  exists ix,
    build_indices ext rows = Ok ix /\
    total_records (city_state_index ix) =
      length (filter (fun row => is_Some (city_state_key (make_record ext row))) rows) /\
    total_records (coordinate_grid ix) =
      length (filter (fun row => is_Some (row_lat row) /\ is_Some (row_lng row)) rows).
Proof.
  intros Hall. eexists. split.
  { apply run_loop_Ok. split; [exact Hall | reflexivity]. }
  simpl. rewrite !total_records_foldl.
  unfold total_records. rewrite !map_fold_empty. simpl.
  rewrite !length_filter_fmap. split; [reflexivity|].
  clear -Hall. induction Hall as [|row rows Hfin Hall IH]; [reflexivity|].
  rewrite !filter_cons.
  destruct (decide (is_Some (bucket_of (make_record ext row)))) as [Hb|Hb];
    destruct (decide (is_Some (row_lat row) /\ is_Some (row_lng row))) as [Hc|Hc];
    simpl; rewrite ?IH; try reflexivity; exfalso.
  - destruct Hb as [key Hkey]. apply bucket_of_coordinates in Hkey.
    apply Hc. exact Hkey.
  - destruct Hc as [[la Hla] [lo Hlo]].
    destruct (bucket_of_present ext row la lo Hfin Hla Hlo) as [key Hkey].
    apply Hb. eauto.
Qed.

Lemma index_record_counts_witness :
  Forall (fun row => finite_coordinates row = true) sample_source /\
  exists ix,
    build_indices AsciiStr.externals sample_source = Ok ix /\
    total_records (city_state_index ix) =
      length (filter (fun row => is_Some (city_state_key (make_record AsciiStr.externals row)))
                     sample_source) /\
    total_records (coordinate_grid ix) =
      length (filter (fun row => is_Some (row_lat row) /\ is_Some (row_lng row)) sample_source).
Proof.
  split; [exact sample_source_finite|].
  apply (index_record_counts AsciiStr.externals sample_source).
  exact sample_source_finite.
Defined.

(** * A coordinate without a bucket *)

Lemma run_loop_app (ext : Externals) (rows1 rows2 : list Row) (ix : Indices) :
  run_loop ext ix (rows1 ++ rows2) =
  bind (run_loop ext ix rows1) (fun ix' => run_loop ext ix' rows2).
Proof.
  revert ix. induction rows1 as [|row rows1 IH]; intros ix; simpl; [reflexivity|].
  destruct (process_row ext ix row) as [ix1|e]; simpl; [apply IH | reflexivity].
Qed.

Lemma int_of_float_Raise (x : float) (e : exn) :
  Py.int_of_float x = Raise e -> e = OverflowError \/ e = ValueError.
Proof.
  unfold Py.int_of_float. destruct (Prim2SF x); intros Heq; inversion Heq; auto.
Qed.

(** X5.  The loop stops at the first row that has both coordinates and one
    of them without a bucket.  The exception is the one of [int], of the
    latitude when the latitude has no bucket and of the longitude otherwise,
    an [OverflowError] or a [ValueError]; the rows after it play no part, and
    the run has printed its opening line and nothing else. *)
Theorem loop_stops_at_bad_coordinate (ext : Externals)
    (good rest : list Row) (bad : Row) :
  Forall (fun row => finite_coordinates row = true) good ->
  finite_coordinates bad = false ->
  exists la lo e,
    row_lat bad = Some la /\ row_lng bad = Some lo /\
    build_indices ext (good ++ bad :: rest) = Raise e /\
    (Py.int_of_float (la * 10) = Raise e \/
     (is_ok (Py.int_of_float (la * 10)) = true /\ Py.int_of_float (lo * 10) = Raise e)) /\
    (e = OverflowError \/ e = ValueError) /\
    (forall w path,
       fetchall w path = Ok (good ++ bad :: rest) ->
       build_fast_indices ext w (Some path) = ([PrintBuildingFrom path], Raise e)).
Proof.
  intros Hgood Hbad.
  unfold finite_coordinates in Hbad.
  destruct (row_lat bad) as [la|] eqn:Hla; [|discriminate].
  destruct (row_lng bad) as [lo|] eqn:Hlo; [|discriminate].
  assert (Hkey : exists e,
             grid_key (make_record ext bad) = Some (Raise e) /\
             (Py.int_of_float (la * 10) = Raise e \/
              (is_ok (Py.int_of_float (la * 10)) = true /\
               Py.int_of_float (lo * 10) = Raise e))).
  { unfold grid_key. simpl. rewrite Hla, Hlo.
    destruct (Py.int_of_float (la * 10)) as [a|e1]; simpl in *.
    - destruct (Py.int_of_float (lo * 10)) as [b|e2]; simpl in *; [discriminate|].
      exists e2. split; [reflexivity|]. right. split; reflexivity.
    - exists e1. split; [reflexivity|]. left. reflexivity. }
  destruct Hkey as (e & Hkey & Hwhich).
  assert (Hbuild : build_indices ext (good ++ bad :: rest) = Raise e).
  { unfold build_indices. rewrite run_loop_app.
    destruct (build_indices_Ok ext good Hgood) as (ix & Hix & _).
    unfold build_indices in Hix. rewrite Hix. simpl.
    unfold process_row. rewrite Hkey. reflexivity. }
  exists la, lo, e. repeat split; try assumption.
  - destruct Hwhich as [He|[_ He]]; exact (int_of_float_Raise _ _ He).
  - intros w path Hfetch. unfold build_fast_indices. simpl.
    rewrite Hfetch, Hbuild. reflexivity.
Qed.

Lemma loop_stops_at_bad_coordinate_witness :
  (Forall (fun row => finite_coordinates row = true) [row_beverly] /\
   finite_coordinates row_nowhere = false) /\
  exists la lo e,
    row_lat row_nowhere = Some la /\ row_lng row_nowhere = Some lo /\
    build_indices AsciiStr.externals ([row_beverly] ++ row_nowhere :: [row_holtsville]) = Raise e /\
    (Py.int_of_float (la * 10) = Raise e \/
     (is_ok (Py.int_of_float (la * 10)) = true /\ Py.int_of_float (lo * 10) = Raise e)) /\
    (e = OverflowError \/ e = ValueError) /\
    (forall w path,
       fetchall w path = Ok ([row_beverly] ++ row_nowhere :: [row_holtsville]) ->
       build_fast_indices AsciiStr.externals w (Some path) =
         ([PrintBuildingFrom path], Raise e)).
Proof.
  assert (Hgood : Forall (fun row => finite_coordinates row = true) [row_beverly]).
  { constructor; [vm_compute; reflexivity | constructor]. }
  assert (Hbad : finite_coordinates row_nowhere = false) by (vm_compute; reflexivity).
  split; [split; assumption|].
  exact (loop_stops_at_bad_coordinate AsciiStr.externals
           [row_beverly] [row_holtsville] row_nowhere Hgood Hbad).
Defined.

(** * Building in two parts *)

(** X6.  The indices of a source in two parts are those of the parts put
    together: the zipcode index of the second part laid over that of the
    first, and under every key of the two other indices the list of the
    first part followed by the list of the second. *)
Theorem build_of_two_parts (ext : Externals) (rows1 rows2 : list Row) :
  Forall (fun row => finite_coordinates row = true) (rows1 ++ rows2) ->
  exists ix1 ix2 ix,
    build_indices ext rows1 = Ok ix1 /\
    build_indices ext rows2 = Ok ix2 /\
    build_indices ext (rows1 ++ rows2) = Ok ix /\
    zipcode_index ix = zipcode_index ix2 ∪ zipcode_index ix1 /\
    (forall key,
       bucket_at (city_state_index ix) key =
       bucket_at (city_state_index ix1) key ++ bucket_at (city_state_index ix2) key) /\
    (forall key,
       bucket_at (coordinate_grid ix) key =
       bucket_at (coordinate_grid ix1) key ++ bucket_at (coordinate_grid ix2) key).
Proof.
  intros Hall. pose proof Hall as Hparts. apply Forall_app in Hparts as [Hall1 Hall2].
  destruct (build_indices_Ok ext rows1 Hall1) as (ix1 & Hix1 & Hzip1 & Hcity1 & Hgrid1 & _).
  destruct (build_indices_Ok ext rows2 Hall2) as (ix2 & Hix2 & Hzip2 & Hcity2 & Hgrid2 & _).
  destruct (build_indices_Ok ext _ Hall) as (ix & Hix & Hzip & Hcity & Hgrid & _).
  exists ix1, ix2, ix. repeat split; try assumption.
  - apply map_eq. intros code.
    rewrite lookup_union, Hzip, Hzip1, Hzip2, fmap_app, filter_app, last_app.
    destruct (last (filter _ (make_record ext <$> rows2))) as [r2|];
      destruct (last (filter _ (make_record ext <$> rows1))) as [r1|]; reflexivity.
  - intros key. rewrite Hcity, Hcity1, Hcity2, fmap_app, filter_app. reflexivity.
  - intros key. rewrite Hgrid, Hgrid1, Hgrid2, fmap_app, filter_app. reflexivity.
Qed.

Lemma build_of_two_parts_witness :
  Forall (fun row => finite_coordinates row = true)
         ([row_beverly; row_holtsville] ++ [row_no_code; row_beverly_again; row_long_code]) /\
  exists ix1 ix2 ix,
    build_indices AsciiStr.externals [row_beverly; row_holtsville] = Ok ix1 /\
    build_indices AsciiStr.externals [row_no_code; row_beverly_again; row_long_code] = Ok ix2 /\
    build_indices AsciiStr.externals
      ([row_beverly; row_holtsville] ++ [row_no_code; row_beverly_again; row_long_code]) = Ok ix /\
    zipcode_index ix = zipcode_index ix2 ∪ zipcode_index ix1 /\
    (forall key,
       bucket_at (city_state_index ix) key =
       bucket_at (city_state_index ix1) key ++ bucket_at (city_state_index ix2) key) /\
    (forall key,
       bucket_at (coordinate_grid ix) key =
       bucket_at (coordinate_grid ix1) key ++ bucket_at (coordinate_grid ix2) key).
Proof.
  split; [exact sample_source_finite|].
  apply (build_of_two_parts AsciiStr.externals [row_beverly; row_holtsville]
           [row_no_code; row_beverly_again; row_long_code]).
  exact sample_source_finite.
Defined.

(** * The order of the rows *)

(** When no two rows share a padded code, at most one record carries a
    given code. *)
Lemma one_record_per_code (ext : Externals) (rows : list Row) (code : string) :
  NoDup (padded_codes rows) ->
  (length (filter (fun r => Py.truthy (zipcode r) = Some code)
                  (make_record ext <$> rows)) <= 1)%nat.
Proof.
  induction rows as [|row rows IH]; intros Hnd; [simpl; lia|].
  rewrite fmap_cons, filter_cons.
  unfold padded_codes in Hnd. cbn [omap list_omap] in Hnd.
  fold (padded_codes rows) in Hnd.
  destruct (decide (Py.truthy (zipcode (make_record ext row)) = Some code)) as [Hc|Hc].
  - apply record_code in Hc as (raw & Hraw & ->).
    rewrite Hraw in Hnd. simpl in Hnd.
    apply NoDup_cons in Hnd as [Hnotin _].
    destruct (filter _ (make_record ext <$> rows)) as [|r l] eqn:Hf; [simpl; lia|].
    exfalso. apply Hnotin. apply (padded_codes_elem ext). exists r.
    assert (Hr : r ∈ filter (fun r => Py.truthy (zipcode r) = Some (Py.zfill 5 raw))
                            (make_record ext <$> rows)).
    { rewrite Hf. apply elem_of_cons. left. reflexivity. }
    apply list_elem_of_filter in Hr. tauto.
  - apply IH. destruct (Py.truthy (row_zipcode row)); simpl in Hnd; [|exact Hnd].
    apply NoDup_cons in Hnd. tauto.
Qed.

Lemma short_permutation_eq {A : Type} (l1 l2 : list A) :
  l1 ≡ₚ l2 -> (length l1 <= 1)%nat -> l1 = l2.
Proof.
  intros Hperm Hlen. destruct l1 as [|x [|y l1]]; simpl in Hlen; [| |lia].
  - apply Permutation_nil_l in Hperm. congruence.
  - apply Permutation_singleton_l in Hperm. congruence.
Qed.

(** X7.  The query that feeds the loop has no [ORDER BY].  Reading the same
    rows in another order gives the same keys in all three indices and, under
    each key of the city/state index and of the grid, the same records in
    another order.  When no two rows share a padded code, the zipcode index
    is the same whatever the order. *)
Theorem row_order_matters_little (ext : Externals) (rows rows' : list Row) :
  Forall (fun row => finite_coordinates row = true) rows ->
  rows ≡ₚ rows' ->
  exists ix ix',
    build_indices ext rows = Ok ix /\
    build_indices ext rows' = Ok ix' /\
    dom (zipcode_index ix) = dom (zipcode_index ix') /\
    dom (city_state_index ix) = dom (city_state_index ix') /\
    dom (coordinate_grid ix) = dom (coordinate_grid ix') /\
    (forall key,
       bucket_at (city_state_index ix) key ≡ₚ bucket_at (city_state_index ix') key) /\
    (forall key,
       bucket_at (coordinate_grid ix) key ≡ₚ bucket_at (coordinate_grid ix') key) /\
    (NoDup (padded_codes rows) -> zipcode_index ix = zipcode_index ix').
Proof.
  intros Hall Hperm.
  assert (Hall' : Forall (fun row => finite_coordinates row = true) rows').
  { rewrite <- Hperm. exact Hall. }
  destruct (build_indices_Ok ext rows Hall)
    as (ix & Hix & Hzip & Hcity & Hgrid & Hdomc & Hdomg).
  destruct (build_indices_Ok ext rows' Hall')
    as (ix' & Hix' & Hzip' & Hcity' & Hgrid' & Hdomc' & Hdomg').
  assert (Hrecs : make_record ext <$> rows ≡ₚ make_record ext <$> rows').
  { rewrite Hperm. reflexivity. }
  exists ix, ix'. repeat split; try assumption.
  - apply set_eq. intros code. rewrite !elem_of_dom, Hzip, Hzip'.
    assert (Hany : forall l : list FastZipcode,
              is_Some (last (filter (fun r => Py.truthy (zipcode r) = Some code) l)) <->
              exists r, r ∈ l /\ Py.truthy (zipcode r) = Some code).
    { intros l. split.
      - intros [r Hr]. exists r.
        apply last_Some_elem_of, list_elem_of_filter in Hr. tauto.
      - intros (r & Hin & Hcode).
        destruct (last _) as [r'|] eqn:Hlast; [eauto|].
        apply last_None in Hlast. exfalso.
        apply (filter_nil_not_elem_of _ _ r Hlast Hcode Hin). }
    rewrite !Hany. setoid_rewrite Hrecs. reflexivity.
  - apply set_eq. intros key. rewrite !elem_of_dom, Hdomc, Hdomc'.
    setoid_rewrite Hrecs. reflexivity.
  - apply set_eq. intros key. rewrite !elem_of_dom, Hdomg, Hdomg'.
    setoid_rewrite Hrecs. reflexivity.
  - intros key. rewrite Hcity, Hcity', Hrecs. reflexivity.
  - intros key. rewrite Hgrid, Hgrid', Hrecs. reflexivity.
  - intros Hnd. apply map_eq. intros code. rewrite Hzip, Hzip'. f_equal.
    apply short_permutation_eq.
    + rewrite Hrecs. reflexivity.
    + apply one_record_per_code. exact Hnd.
Qed.

Lemma row_order_matters_little_witness :
  (Forall (fun row => finite_coordinates row = true) sample_source /\
   sample_source ≡ₚ rev sample_source) /\
  exists ix ix',
    build_indices AsciiStr.externals sample_source = Ok ix /\
    build_indices AsciiStr.externals (rev sample_source) = Ok ix' /\
    dom (zipcode_index ix) = dom (zipcode_index ix') /\
    dom (city_state_index ix) = dom (city_state_index ix') /\
    dom (coordinate_grid ix) = dom (coordinate_grid ix') /\
    (forall key,
       bucket_at (city_state_index ix) key ≡ₚ bucket_at (city_state_index ix') key) /\
    (forall key,
       bucket_at (coordinate_grid ix) key ≡ₚ bucket_at (coordinate_grid ix') key) /\
    (NoDup (padded_codes sample_source) -> zipcode_index ix = zipcode_index ix').
Proof.
  assert (Hperm : sample_source ≡ₚ rev sample_source) by apply Permutation_rev.
  split; [split; [exact sample_source_finite | exact Hperm]|].
  exact (row_order_matters_little AsciiStr.externals sample_source (rev sample_source)
           sample_source_finite Hperm).
Defined.

(** * Where the database is looked for *)



(** * Codes and leading zeros *)

Lemma zfill_long (width : nat) (s : string) :
  (width <= String.length s)%nat -> Py.zfill width s = s.
Proof.
  intros Hlen. unfold Py.zfill.
  destruct (Nat.leb_spec width (String.length s)); [reflexivity | lia].
Qed.

Lemma zfill_idempotent (s : string) : Py.zfill 5 (Py.zfill 5 s) = Py.zfill 5 s.
Proof. apply zfill_long. rewrite zfill_length. lia. Qed.

Lemma zeros_add (a b : nat) : Py.zeros (a + b) = Py.zeros a +:+ Py.zeros b.
Proof.
  induction a as [|a IH]; [reflexivity|].
  simpl Py.zeros. rewrite append_cons, IH. reflexivity.
Qed.

Lemma append_assoc (s t u : string) : (s +:+ t) +:+ u = s +:+ (t +:+ u).
Proof.
  induction s as [|c s IH]; [reflexivity|].
  rewrite !append_cons, IH. reflexivity.
Qed.

(** Leading zeros in front of a short code of digits do not change what it
    is padded to. *)
Lemma zfill_leading_zeros (s : string) (k : nat) :
  Py.all_digits s = true -> (k + String.length s <= 5)%nat ->
  Py.zfill 5 (Py.zeros k +:+ s) = Py.zfill 5 s.
Proof.
  intros Hd Hlen.
  assert (Hd' : Py.all_digits (Py.zeros k +:+ s) = true).
  { rewrite all_digits_append, all_digits_zeros, Hd. reflexivity. }
  assert (Hlen' : String.length (Py.zeros k +:+ s) = (k + String.length s)%nat).
  { rewrite length_append, length_zeros. reflexivity. }
  destruct (zfill_digits _ Hd' ltac:(lia)) as [-> _].
  destruct (zfill_digits _ Hd ltac:(lia)) as [-> _].
  rewrite Hlen', <- append_assoc, <- zeros_add. f_equal. f_equal. lia.
Qed.

(** X9.  Every key of the zipcode index is its own padding, so a lookup
    that pads the code it is given, as the builder pads the codes it stores,
    asks for keys as they are stored.  A row whose raw code is made of at
    most five digits is found under the padding of that code written with
    more leading zeros, or with fewer. *)
Theorem padded_lookup_finds_code (ext : Externals) (rows : list Row) :
  Forall (fun row => finite_coordinates row = true) rows ->
  exists ix,
    build_indices ext rows = Ok ix /\
    (forall code,
       is_Some (zipcode_index ix !! code) ->
       Py.zfill 5 code = code /\ (5 <= String.length code)%nat) /\
    (forall row raw k,
       row ∈ rows -> Py.truthy (row_zipcode row) = Some raw ->
       Py.all_digits raw = true -> (k + String.length raw <= 5)%nat ->
       is_Some (zipcode_index ix !! Py.zfill 5 (Py.zeros k +:+ raw))) /\
    (forall row s k,
       row ∈ rows -> Py.truthy (row_zipcode row) = Some (Py.zeros k +:+ s) ->
       Py.all_digits s = true -> (k + String.length s <= 5)%nat ->
       is_Some (zipcode_index ix !! Py.zfill 5 s)).
Proof.
  intros Hall.
  destruct (build_indices_Ok ext rows Hall) as (ix & Hix & Hzip & _).
  exists ix. split; [exact Hix|].
  assert (Hfound : forall row raw,
            row ∈ rows -> Py.truthy (row_zipcode row) = Some raw ->
            is_Some (zipcode_index ix !! Py.zfill 5 raw)).
  { intros row raw Hin Hraw. rewrite Hzip.
    destruct (last _) as [r|] eqn:Hlast; [eauto|].
    apply last_None in Hlast. exfalso.
    apply (filter_nil_not_elem_of _ _ (make_record ext row) Hlast).
    - apply record_code. exists raw. split; [exact Hraw | reflexivity].
    - apply list_elem_of_fmap_2. exact Hin. }
  split; [|split].
  - intros code [r Hr]. rewrite Hzip in Hr.
    apply last_Some_elem_of, list_elem_of_filter in Hr as [Hcode Hin].
    apply list_elem_of_fmap in Hin as (row & -> & _).
    apply record_code in Hcode as (raw & _ & ->).
    split; [apply zfill_idempotent | rewrite zfill_length; lia].
  - intros row raw k Hin Hraw Hd Hlen.
    rewrite (zfill_leading_zeros raw k Hd Hlen). exact (Hfound row raw Hin Hraw).
  - intros row s k Hin Hraw Hd Hlen.
    rewrite <- (zfill_leading_zeros s k Hd Hlen). exact (Hfound row _ Hin Hraw).
Qed.

Lemma padded_lookup_finds_code_witness :
  Forall (fun row => finite_coordinates row = true) sample_source /\
  exists ix,
    build_indices AsciiStr.externals sample_source = Ok ix /\
    (forall code,
       is_Some (zipcode_index ix !! code) ->
       Py.zfill 5 code = code /\ (5 <= String.length code)%nat) /\
    (forall row raw k,
       row ∈ sample_source -> Py.truthy (row_zipcode row) = Some raw ->
       Py.all_digits raw = true -> (k + String.length raw <= 5)%nat ->
       is_Some (zipcode_index ix !! Py.zfill 5 (Py.zeros k +:+ raw))) /\
    (forall row s k,
       row ∈ sample_source -> Py.truthy (row_zipcode row) = Some (Py.zeros k +:+ s) ->
       Py.all_digits s = true -> (k + String.length s <= 5)%nat ->
       is_Some (zipcode_index ix !! Py.zfill 5 s)).
Proof.
  split; [exact sample_source_finite|].
  apply (padded_lookup_finds_code AsciiStr.externals sample_source).
  exact sample_source_finite.
Defined.

(** * The cycle through the test data *)

Lemma repeat_list_S {A : Type} (data : list A) (k : nat) :
  repeat_list data (S k) = data ++ repeat_list data k.
Proof. reflexivity. Qed.

Lemma length_repeat_list {A : Type} (data : list A) (k : nat) :
  length (repeat_list data k) = (k * length data)%nat.
Proof.
  induction k as [|k IH]; [reflexivity|].
  rewrite repeat_list_S, length_app, IH. simpl. lia.
Qed.

Lemma lookup_repeat_list {A : Type} (data : list A) (k i : nat) :
  (i < k * length data)%nat ->
  repeat_list data k !! i = data !! (i mod length data)%nat.
Proof.
  revert i. induction k as [|k IH]; intros i Hi; [simpl in Hi; lia|].
  rewrite repeat_list_S.
  assert (Hpos : (0 < length data)%nat) by (simpl in Hi; lia).
  destruct (Nat.lt_ge_cases i (length data)) as [Hlt|Hge].
  - rewrite lookup_app_l by exact Hlt. rewrite Nat.mod_small by exact Hlt. reflexivity.
  - rewrite lookup_app_r by exact Hge. rewrite IH by (simpl in Hi; lia).
    f_equal. replace i with ((i - length data) + 1 * length data)%nat at 2 by lia.
    rewrite Nat.Div0.mod_add. reflexivity.
Qed.

(** X10.  The benchmark's cycle through its test data, for data that is not
    empty, has exactly as many entries as operations were asked for, and its
    entries go round the data in order, again and again.  On empty data the
    division fails. *)
Theorem cycle_goes_round {A : Type} (data : list A) (test_size : nat) :
  (data = [] -> cycle data test_size = None) /\
  (data <> [] ->
   exists l,
     cycle data test_size = Some l /\
     length l = test_size /\
     forall i, (i < test_size)%nat -> l !! i = data !! (i mod length data)%nat).
Proof.
  split; [intros ->; reflexivity|].
  intros Hne. unfold cycle.
  destruct (length data) as [|n] eqn:Hlen.
  { destruct data; [congruence | discriminate Hlen]. }
  rewrite <- Hlen. assert (Hpos : (0 < length data)%nat) by lia. clear n Hlen.
  assert (Hbig : (test_size <= (test_size / length data + 1) * length data)%nat).
  { pose proof (Nat.div_mod_eq test_size (length data)) as Hdm.
    pose proof (Nat.mod_upper_bound test_size (length data) ltac:(lia)) as Hmod.
    nia. }
  eexists. split; [reflexivity|]. split.
  - rewrite length_take_le; [reflexivity|]. rewrite length_repeat_list. exact Hbig.
  - intros i Hi. rewrite lookup_take_lt by exact Hi.
    apply lookup_repeat_list. lia.
Qed.

Example cycle_sample :
  cycle ["90210"; "00501"; "10001"] 7 =
    Some ["90210"; "00501"; "10001"; "90210"; "00501"; "10001"; "90210"] /\
  cycle (@nil string) 7 = None.
Proof. split; reflexivity. Qed.
